(** * Aspen reconnaissance framework: the concurrent scan engine

    A shallow embedding of [AspenFramework.enumerate_subdomains] and
    [AspenFramework.scan_ports] of [aspen.py], and the properties of the two
    engines that the design document states.

    Conventions of the embedding.
    - A Python [str] is a [string]; a character is a code point below 256.
    - The [set] of subdomains is a [gset string], the [dict] of open ports a
      [gmap Z string]; a Python [int] is a [Z].
    - The collaborators (DNS resolver, file system, HTTP client, raw packet
      I/O) are the fields of an environment record; a call that raises is a
      constructor of its result type.
    - Every call to a collaborator and every line printed by [log] is
      recorded in a [world] threaded through the code.
    - The tasks handed to a [ThreadPoolExecutor] touch the shared collection
      only through one [set.add] or one [dict.__setitem__]; the pool is
      modelled by running the tasks one after the other in the order chosen
      by a scheduler, which may be any rearrangement of the submitted list.
    - The progress bar, the rendered table and [save_results] only display or
      persist the value that is returned; they are left out of the two
      engines, and the table and [save_results] are added back around them
      in the part on the other modules. *)

From Stdlib Require Import ZArith String Ascii List Lia.
From stdpp Require Import base gmap sets list strings.

Local Open Scope string_scope.
Local Open Scope Z_scope.

(** ** Python string operations *)

Module PyStr.

(** [str.lower] on one code point below 256: the letters A-Z and the
    Latin-1 capitals (0xC0-0xDE without the multiplication sign 0xD7) move
    up by 32, everything else stays. *)
Definition lower_char (c : ascii) : ascii :=
  let n := nat_of_ascii c in
  if ((65 <=? n) && (n <=? 90))%nat then ascii_of_nat (n + 32)
  else if ((192 <=? n) && (n <=? 222) && negb (n =? 215))%nat
       then ascii_of_nat (n + 32)
       else c.

Fixpoint lower (s : string) : string :=
  match s with
  | EmptyString => EmptyString
  | String c s' => String (lower_char c) (lower s')
  end.

(** [str.isspace] on one code point below 256. *)
Definition isspace (c : ascii) : bool :=
  let n := nat_of_ascii c in
  (((9 <=? n) && (n <=? 13)) || ((28 <=? n) && (n <=? 32))
   || (n =? 133) || (n =? 160))%nat.

Fixpoint lstrip (s : string) : string :=
  match s with
  | EmptyString => EmptyString
  | String c s' => if isspace c then lstrip s' else s
  end.

(** [rstrip] drops the trailing blanks: a character is kept when it is not
    blank or when something is kept after it. *)
Fixpoint rstrip (s : string) : string :=
  match s with
  | EmptyString => EmptyString
  | String c s' =>
      match rstrip s' with
      | EmptyString => if isspace c then EmptyString else String c EmptyString
      | r => String c r
      end
  end.

Definition strip (s : string) : string := rstrip (lstrip s).

(** [s.endswith(suffix)]. *)
Definition endswith (s suffix : string) : bool :=
  let n := String.length s in
  let k := String.length suffix in
  ((k <=? n)%nat && String.eqb (substring (n - k) k s) suffix)%bool.

(** Truth value of a [str]: the empty string is false. *)
Definition truthy (s : string) : bool :=
  match s with EmptyString => false | _ => true end.

End PyStr.

(** ** Constants of the module *)

Definition DEFAULT_WORDLIST : string := "wordlists/subdomains.txt".
Definition DEFAULT_THREADS : Z := 10.
Definition TIMEOUT : Z := 5.

(** ** Command-line options, exceptions, the observable world *)

Record Args := mkArgs {
  threads : option Z;        (* --threads, [None] when absent *)
  wordlist : option string;  (* --wordlist, [None] when absent *)
  top_ports : bool;
  silent : bool;
  verbose : bool
}.

(** [ValueError] is raised by the pool constructor; [Exception] stands for
    whatever a collaborator or a malformed value raises. *)
Inductive exn := ValueError | Exception.

Inductive outcome (A : Type) :=
| Return (a : A)
| Raise (e : exn).
Arguments Return {A} a.
Arguments Raise {A} e.

Inductive level := Info | Error | Success | Warning.

(** A TCP segment handed to [sr1]: [IP(dst=target)/TCP(dport=port, flags=f)]. *)
Record packet := mkPacket {
  dst : string;
  dport : Z;
  flags : string
}.

Record world := mkWorld {
  console : list (level * string);  (* lines printed, oldest first *)
  queried : list string;            (* names given to the resolver *)
  fetched : list string;            (* URLs given to requests.get *)
  sent : list (packet * Z)          (* packets given to sr1, with timeout *)
}.

Definition world0 : world := mkWorld [] [] [] [].

Definition print (l : level) (message : string) (w : world) : world :=
  mkWorld (console w ++ [(l, message)]) (queried w) (fetched w) (sent w).

Definition note_query (name : string) (w : world) : world :=
  mkWorld (console w) (queried w ++ [name]) (fetched w) (sent w).

Definition note_fetch (url : string) (w : world) : world :=
  mkWorld (console w) (queried w) (fetched w ++ [url]) (sent w).

Definition note_send (p : packet) (timeout : Z) (w : world) : world :=
  mkWorld (console w) (queried w) (fetched w) (sent w ++ [(p, timeout)]).

(** [AspenFramework.log], for a message that rich prints as it is: every
    fixed message of the module is such. A handler that logs the text of an
    exception is modelled by [log_exception] in the part on the other
    modules, since rich raises on markup it cannot close. *)
Definition log (args : Args) (message : string) (l : level) (w : world) : world :=
  if silent args then w
  else match l with
       | Error => print Error message w
       | Success => print Success message w
       | Warning => print Warning message w
       | Info => if verbose args then print Info message w else w
       end.

(** [x or d] for an optional integer: [None] and [0] are false. *)
Definition or_int (x : option Z) (d : Z) : Z :=
  match x with
  | Some n => if n =? 0 then d else n
  | None => d
  end.

(** [x or d] for an optional string: [None] and the empty string are false. *)
Definition or_str (x : option string) (d : string) : string :=
  match x with
  | Some s => if PyStr.truthy s then s else d
  | None => d
  end.

(** ** Collaborators *)

(** What [requests.get] gives back. The body of a response is [None] when
    [response.json()] raises or the value cannot be iterated; a record is
    [None] when [entry['name_value'].lower()] raises. *)
Inductive http_result :=
| HttpRaise
| HttpResponse (status_code : Z) (json : option (list (option string))).

(** A reply returned by [sr1]. *)
Record reply := mkReply {
  haslayer_TCP : bool;
  TCP_flags : Z
}.

(** What the two lines [pkt = IP(dst=target)/TCP(...)] and [sr1(pkt, ...)]
    come to: [sr1] returns a reply or [None], or it raises; or building the
    packet raises already (a target that is no address and does not
    resolve), and then [sr1] is not called. *)
Inductive sr1_result :=
| Sr1Raise
| Sr1None
| Sr1Reply (resp : reply)
| Sr1Unbuilt.

(** [sr1] was called: the packet could be built. *)
Definition sr1_called (r : sr1_result) : bool :=
  match r with
  | Sr1Unbuilt => false
  | Sr1Raise => true
  | Sr1None => true
  | Sr1Reply _ => true
  end.

Record Env := mkEnv {
  (* dns.resolver.resolve(name, 'A'): the records, [None] when it raises *)
  resolve : string -> option (list string);
  (* the lines of the file at a path, [None] when os.path.exists is false *)
  read_lines : string -> option (list string);
  (* the path exists but open() or the decoding of its lines raises *)
  unreadable : string -> bool;
  requests_get : string -> http_result;
  (* the packet is built and given to sr1 with a timeout *)
  sr1 : packet -> Z -> sr1_result
}.

(** ** The bounded work pool *)

(** A scheduler rearranges the submitted tasks into the order they run in. *)
Definition scheduler := forall A : Type, list A -> list A.

Definition fair (sched : scheduler) : Prop :=
  forall (A : Type) (l : list A), sched A l ≡ₚ l.

Definition fifo : scheduler := fun A l => l.
Definition lifo : scheduler := fun A l => rev l.

(** [ThreadPoolExecutor(max_workers=n)] raises [ValueError] when [n <= 0]
    and otherwise runs every submitted task once. *)
Definition ThreadPoolExecutor {A S : Type} (sched : scheduler) (max_workers : Z)
    (task : A -> S -> S) (items : list A) (s : S) : outcome S :=
  if max_workers <=? 0 then Raise ValueError
  else Return (foldl (fun acc x => task x acc) s (sched A items)).

(** ** 1. Subdomain enumeration *)

Section Enumerate.

Variable args : Args.
Variable env : Env.
Variable sched : scheduler.
Variable domain : string.

(** The shared [subdomains] set together with the world. *)
Definition enum_state : Type := gset string * world.

(** The nested function [check_subdomain]: one [add] per record of the
    answer; anything raised is dropped by the bare [except]. *)
Definition check_subdomain (sub : string) (st : enum_state) : enum_state :=
  let name := sub +:+ "." +:+ domain in
  let w := note_query name st.2 in
  match resolve env name with
  | Some answers => (foldl (fun s _rdata => {[name]} ∪ s) st.1 answers, w)
  | None => (st.1, w)
  end.

(** [[line.strip() for line in f if line.strip()]]. *)
Definition load_wordlist (lines : list string) : list string :=
  map PyStr.strip (filter (fun line => PyStr.truthy (PyStr.strip line) = true) lines).

(** The wordlist block: nothing happens when the file does not exist; when
    it exists but cannot be opened or decoded, [open] or the loop over its
    lines raises, before the pool is built. *)
Definition wordlist_stage (st : enum_state) : outcome enum_state :=
  let threads := or_int (threads args) DEFAULT_THREADS in
  let wordlist := or_str (wordlist args) DEFAULT_WORDLIST in
  match read_lines env wordlist with
  | Some lines =>
      if unreadable env wordlist then Raise Exception
      else
        let subs := load_wordlist lines in
        ThreadPoolExecutor sched threads check_subdomain subs st
  | None => Return st
  end.

(** The loop over the records of the passive source, inside the [try]: it
    stops at the first record that raises and keeps what it added. *)
Fixpoint add_entries (data : list (option string)) (s : gset string)
    : gset string * outcome unit :=
  match data with
  | [] => (s, Return tt)
  | None :: _ => (s, Raise Exception)
  | Some name_value :: rest =>
      let sub := PyStr.lower name_value in
      if PyStr.endswith sub ("." +:+ domain)
      then add_entries rest ({[sub]} ∪ s)
      else add_entries rest s
  end.

Definition crt_sh_url : string := "https://crt.sh/?q=" +:+ domain +:+ "&output=json".

(** The body of the [try] of the API fallback. *)
Definition api_try (s : gset string) : gset string * outcome unit :=
  match requests_get env crt_sh_url with
  | HttpRaise => (s, Raise Exception)
  | HttpResponse status_code json =>
      if status_code =? 200 then
        match json with
        | Some data => add_entries data s
        | None => (s, Raise Exception)
        end
      else (s, Return tt)
  end.

(** [try: ... except: self.log("API fallback failed", "warning")]. *)
Definition api_fallback (st : enum_state) : enum_state :=
  let w := note_fetch crt_sh_url st.2 in
  match api_try st.1 with
  | (s, Return _) => (s, w)
  | (s, Raise _) => (s, log args "API fallback failed" Warning w)
  end.

Definition enumerate_subdomains (w : world) : outcome (gset string) * world :=
  let w := log args "Starting subdomain enumeration..." Info w in
  let subdomains : gset string := ∅ in
  match wordlist_stage (subdomains, w) with
  | Raise e => (Raise e, w)
  | Return st =>
      let st := api_fallback st in
      (Return st.1, st.2)
  end.

End Enumerate.

(** ** 2. Port scanning *)

Section Scan.

Variable args : Args.
Variable env : Env.
Variable sched : scheduler.
Variable target : string.

(** The shared [open_ports] dictionary together with the world. *)
Definition scan_state : Type := gmap Z string * world.

(** [resp and resp.haslayer(TCP) and resp[TCP].flags == 0x12]. *)
Definition syn_ack (r : sr1_result) : bool :=
  match r with
  | Sr1Reply resp => haslayer_TCP resp && (TCP_flags resp =? 0x12)
  | Sr1None => false
  | Sr1Raise => false
  | Sr1Unbuilt => false
  end.

(** [banner and banner.haslayer(TCP)], with the inner [except: pass]. *)
Definition banner_seen (r : sr1_result) : bool :=
  match r with
  | Sr1Reply banner => haslayer_TCP banner
  | Sr1None => false
  | Sr1Raise => false
  | Sr1Unbuilt => false
  end.

(** The nested function [scan_port]. A packet is noted as sent when [sr1]
    is called with it, that is when it could be built. *)
Definition scan_port (port : Z) (st : scan_state) : scan_state :=
  let pkt := mkPacket target port "S" in
  let resp := sr1 env pkt TIMEOUT in
  let w := if sr1_called resp then note_send pkt TIMEOUT st.2 else st.2 in
  if syn_ack resp then
    let ack := mkPacket target port "A" in
    let banner := sr1 env ack 1 in
    let w := if sr1_called banner then note_send ack 1 w else w in
    let service := if banner_seen banner then "detected" else "unknown" in
    (<[port := service]> st.1, w)
  else (st.1, w).

(** [range(1, 1025)] with [--top-ports], [range(0, 65536)] otherwise. *)
Definition ports : list Z :=
  if top_ports args then seqZ 1 1024 else seqZ 0 65536.

Definition scan_ports (w : world) : outcome (gmap Z string) * world :=
  let w := log args "Starting port scan..." Info w in
  let open_ports : gmap Z string := ∅ in
  match ThreadPoolExecutor sched (or_int (threads args) DEFAULT_THREADS)
          scan_port ports (open_ports, w) with
  | Raise e => (Raise e, w)
  | Return st => (Return st.1, st.2)
  end.

End Scan.

(** ** Vocabulary of the statements *)

(** The candidate name built from a label of the wordlist. *)
Definition candidate (domain label : string) : string := label +:+ "." +:+ domain.

(** A label as a wordlist is meant to hold them: not empty and without any
    whitespace. *)
Definition plain_label (label : string) : Prop :=
  label <> ""
  /\ forall c : ascii, In c (list_ascii_of_string label) -> PyStr.isspace c = false.

(** The wordlist file can be read. *)
Definition readable_wordlist (args : Args) (env : Env) (lines : list string) : Prop :=
  read_lines env (or_str (wordlist args) DEFAULT_WORDLIST) = Some lines
  /\ unreadable env (or_str (wordlist args) DEFAULT_WORDLIST) = false.

(** The resolver confirms a name when it answers with at least one record. *)
Definition confirms (env : Env) (name : string) : bool :=
  match resolve env name with
  | Some (_ :: _) => true
  | Some [] => false
  | None => false
  end.

(** The passive source contributes nothing: the request raises, the status
    is not 200, or the body cannot be parsed. *)
Definition passive_down (env : Env) (domain : string) : bool :=
  match requests_get env (crt_sh_url domain) with
  | HttpRaise => true
  | HttpResponse status_code json =>
      negb (status_code =? 200) || match json with None => true | Some _ => false end
  end.

(** The limit given to the pool constructor is accepted. *)
Definition pool_accepts (args : Args) : Prop :=
  0 < or_int (threads args) DEFAULT_THREADS.

(** TCP flag bits, least significant first: FIN SYN RST PSH ACK URG ECE CWR. *)
Definition SYN_bit : Z := 1.
Definition RST_bit : Z := 2.
Definition ACK_bit : Z := 4.

Definition carries (bit : Z) (resp : reply) : Prop :=
  Z.testbit (TCP_flags resp) bit = true.

(** The flags of a reply are SYN and ACK and no other. *)
Definition only_syn_ack (resp : reply) : Prop :=
  forall i : Z, 0 <= i ->
    Z.testbit (TCP_flags resp) i = (i =? SYN_bit) || (i =? ACK_bit).

(** What [scan_port] sends for one port: the SYN segment when it can be
    built, then the ACK segment when the port answered with SYN-ACK and that
    segment can be built. *)
Definition probes_of (env : Env) (target : string) (port : Z) : list (packet * Z) :=
  let pkt := mkPacket target port "S" in
  let ack := mkPacket target port "A" in
  ((if sr1_called (sr1 env pkt TIMEOUT) then [(pkt, TIMEOUT)] else [])
   ++ (if syn_ack (sr1 env pkt TIMEOUT) && sr1_called (sr1 env ack 1)
       then [(ack, 1)] else []))%list.

(** Every packet for a target can be built. *)
Definition addressable (env : Env) (target : string) : Prop :=
  forall (port : Z) (f : string) (timeout : Z),
    sr1_called (sr1 env (mkPacket target port f) timeout) = true.

(** The label [scan_port] stores for a port, [None] when it stores nothing. *)
Definition verdict (env : Env) (target : string) (port : Z) : option string :=
  if syn_ack (sr1 env (mkPacket target port "S") TIMEOUT)
  then Some (if banner_seen (sr1 env (mkPacket target port "A") 1)
             then "detected" else "unknown")
  else None.

(** ** Concrete collaborators used in the examples *)

Module Examples.

Definition args0 : Args := mkArgs None None true false false.
Definition args_neg : Args := mkArgs (Some (-1)) None true false false.

Definition no_sr1 : packet -> Z -> sr1_result := fun _ _ => Sr1None.
Definition no_dns : string -> option (list string) := fun _ => None.
Definition no_file : string -> option (list string) := fun _ => None.
Definition readable : string -> bool := fun _ => false.

Definition default_file (lines : list string) : string -> option (list string) :=
  fun path => if String.eqb path DEFAULT_WORDLIST then Some lines else None.

(** Scenario A: the resolver confirms www.example.com only; no passive source. *)
Definition envA : Env := mkEnv
  (fun name => if String.eqb name "www.example.com" then Some ["93.184.216.34"] else None)
  (default_file ["www"; "mail"])
  readable
  (fun _ => HttpRaise)
  no_sr1.

(** Scenario B: ports 80 and 443 answer SYN-ACK, nothing answers the ACK. *)
Definition envB : Env := mkEnv no_dns no_file readable (fun _ => HttpRaise)
  (fun p _ =>
     if String.eqb (flags p) "S" && ((dport p =? 80) || (dport p =? 443))
     then Sr1Reply (mkReply true 0x12) else Sr1None).

(** Scenario C: the passive source returns one record of the domain and
    one of another domain. *)
Definition envC : Env := mkEnv no_dns no_file readable
  (fun _ => HttpResponse 200 (Some [Some "Sub.Example.com"; Some "other.net"]))
  no_sr1.

(** Scenario D: the raw socket cannot be created, every [sr1] raises. *)
Definition envD : Env := mkEnv no_dns no_file readable (fun _ => HttpRaise)
  (fun _ _ => Sr1Raise).

(** The passive source answers with status 503. *)
Definition env503 : Env := mkEnv no_dns no_file readable
  (fun _ => HttpResponse 503 None) no_sr1.

(** A wordlist in capitals, a resolver that ignores case (as DNS does) and
    a passive source that knows the same host. *)
Definition envCaps : Env := mkEnv
  (fun name => if String.eqb (PyStr.lower name) "www.example.com"
               then Some ["93.184.216.34"] else None)
  (default_file ["WWW"])
  readable
  (fun _ => HttpResponse 200 (Some [Some "www.example.com"]))
  no_sr1.

(** One port answers SYN-ACK with the ECE flag added, one answers RST-ACK,
    one sends a reply without a TCP layer, one answers SYN-ACK. *)
Definition envFlags : Env := mkEnv no_dns no_file readable (fun _ => HttpRaise)
  (fun p _ =>
     if dport p =? 22 then Sr1Reply (mkReply true 0x52)
     else if dport p =? 23 then Sr1Reply (mkReply true 0x14)
     else if dport p =? 24 then Sr1Reply (mkReply false 0x12)
     else if dport p =? 25 then Sr1Reply (mkReply true 0x12)
     else Sr1None).


(** The target is no address and does not resolve: no packet can be built. *)
Definition envUnbuilt : Env := mkEnv no_dns no_file readable (fun _ => HttpRaise)
  (fun _ _ => Sr1Unbuilt).

End Examples.


(** ** 3. The other modules of the framework

    Persistence ([save_results]), technology fingerprinting, vulnerability
    mapping, screenshots and the full scan. Their collaborators (the HTTP
    client, [urlparse], the file system, the resolver of the socket module
    and the browser driver) are the fields of a second environment record;
    a call that raises yields the text of the exception, which the code
    prints. The paths are those of a POSIX system. *)

From stdpp Require Import sorting.

Local Open Scope Z_scope.

Module PyText.

(** [s.startswith(prefix)]. *)
Fixpoint startswith (s prefix : string) : bool :=
  match prefix, s with
  | EmptyString, _ => true
  | String a p, String b s' => Ascii.eqb a b && startswith s' p
  | String _ _, EmptyString => false
  end.

(** [needle in hay] for two strings. *)
Fixpoint contains (needle hay : string) : bool :=
  startswith hay needle
  || match hay with
     | EmptyString => false
     | String _ rest => contains needle rest
     end.

(** [sep.join(l)]. *)
Fixpoint join (sep : string) (l : list string) : string :=
  match l with
  | [] => ""
  | x :: rest =>
      match rest with
      | [] => x
      | _ :: _ => x +:+ sep +:+ join sep rest
      end
  end.

(** The line feed. *)
Definition LF : string := String (ascii_of_nat 10) EmptyString.

(** The order of [str]: code point by code point, a prefix first. *)
Definition str_le (a b : string) : Prop := String.leb a b = true.

#[global] Instance str_le_dec : RelDecision str_le.
Proof. intros a b. unfold str_le. apply _. Defined.

(** [sorted(l)] for strings. *)
Definition sorted (l : list string) : list string := merge_sort str_le l.

(** [os.path.join(a, b)]. *)
Definition path_join (a b : string) : string :=
  if startswith b "/" then b
  else if negb (PyStr.truthy a) || PyStr.endswith a "/" then a +:+ b
       else a +:+ "/" +:+ b.

End PyText.

Definition RESULTS_DIR : string := "results".
Definition SCREENSHOTS_DIR : string := "screenshots".

(** The options of the engines together with [--save]. *)
Record Options := mkOptions {
  engine : Args;
  save : bool
}.

(** The outcome of a call that may raise [Exception]: the value, or the text
    of the exception. *)
Inductive attempt (A : Type) :=
| Ok (a : A)
| Fails (message : string).
Arguments Ok {A} a.
Arguments Fails {A} message.

(** A response of [requests.get]. Its headers are a case-insensitive
    dictionary: the names are stored in lower case and looked up so. *)
Record response := mkResponse {
  status : Z;
  text : string;
  headers : gmap string string
}.

(** [headers.get(name)], [None] when [name not in headers]. *)
Definition header (r : response) (name : string) : option string :=
  headers r !! PyStr.lower name.

(** The dictionary built by [fingerprint_tech]. *)
Record tech := mkTech {
  server : string;
  language : string;
  cms : string;
  security_headers : gmap string bool
}.

(** What [save_results] is given: a text ([json_format=False]) or a value
    written by [json.dump] ([json_format=True]). *)
Inductive payload :=
| Text (data : string)
| JsonPorts (data : gmap Z string)
| JsonTech (data : tech).

Record Host := mkHost {
  http_get : string -> attempt response;          (* requests.get(url, timeout=TIMEOUT) *)
  netloc : string -> attempt string;              (* urlparse(url).netloc *)
  open_w : string -> attempt unit;                (* open(filepath, 'w') *)
  gethostbyname : string -> attempt string;       (* socket.gethostbyname(domain) *)
  Chrome : attempt unit;                          (* webdriver.Chrome(options=options) *)
  driver_get : string -> attempt unit;            (* driver.get(url) *)
  driver_save_screenshot : string -> attempt unit;
  driver_quit : attempt unit;
  (* console.print raises MarkupError on the text: a closing tag of the
     markup of rich that matches no open tag *)
  rich_rejects : string -> bool
}.

(** The calls made on the browser driver. *)
Inductive browser_event :=
| Launched
| Visited (url : string)
| Shot (filepath : string)
| Closed.

(** The world of the engines, the files written by [save_results], the calls
    on the browser and the tables of open ports printed on the console. *)
Record desk := mkDesk {
  seen : world;
  disk : gmap string payload;
  browser : list browser_event;
  tables : list (gmap Z string)
}.

Definition desk0 : desk := mkDesk world0 ∅ [] [].

Definition with_seen (w : world) (d : desk) : desk :=
  mkDesk w (disk d) (browser d) (tables d).

Definition write_file (filepath : string) (data : payload) (d : desk) : desk :=
  mkDesk (seen d) (<[filepath := data]> (disk d)) (browser d) (tables d).

Definition note_browser (e : browser_event) (d : desk) : desk :=
  mkDesk (seen d) (disk d) (browser d ++ [e]) (tables d).

Definition note_table (m : gmap Z string) (d : desk) : desk :=
  mkDesk (seen d) (disk d) (browser d) (tables d ++ [m]).

Section Modules.

Variable opts : Options.
Variable env : Env.
Variable host : Host.
Variable sched : scheduler.

(** [self.log] on a desk. *)
Definition log_desk (message : string) (l : level) (d : desk) : desk :=
  with_seen (log (engine opts) message l (seen d)) d.

(** [self.log(message, "error")] for a message that holds the text of an
    exception. With [--silent] nothing is printed; otherwise the line goes
    through the markup of rich, which raises on a closing tag it cannot
    match, before anything is printed. *)
Definition log_exception (message : string) (d : desk) : outcome unit * desk :=
  if silent (engine opts) then (Return tt, d)
  else if rich_rejects host message then (Raise Exception, d)
  else (Return tt, log_desk message Error d).

(** [AspenFramework.save_results]: nothing without [--save]; the exception
    of [open] is not caught here. The path is taken to hold no markup. *)
Definition save_results (data : payload) (filename : string) (d : desk)
    : attempt unit * desk :=
  if negb (save opts) then (Ok tt, d)
  else
    let filepath := PyText.path_join RESULTS_DIR filename in
    match open_w host filepath with
    | Fails message => (Fails message, d)
    | Ok _ =>
        let d := write_file filepath data d in
        (Ok tt, log_desk ("Results saved to " +:+ filepath) Success d)
    end.

(** The end of [enumerate_subdomains]: the sorted names, one per line, are
    handed to [save_results] before the set is returned. *)
Definition enumerate_subdomains_saved (domain : string) (d : desk)
    : outcome (gset string) * desk :=
  match enumerate_subdomains (engine opts) env sched domain (seen d) with
  | (Raise e, w) => (Raise e, with_seen w d)
  | (Return subdomains, w) =>
      let result := PyText.join PyText.LF (PyText.sorted (elements subdomains)) in
      match save_results (Text result) ("subdomains_" +:+ domain +:+ ".txt")
              (with_seen w d) with
      | (Fails _, d') => (Raise Exception, d')
      | (Ok _, d') => (Return subdomains, d')
      end
  end.

(** The end of [scan_ports]: the table is printed, whatever the options, and
    the map is handed to [save_results] before it is returned. *)
Definition scan_ports_saved (target : string) (d : desk)
    : outcome (gmap Z string) * desk :=
  match scan_ports (engine opts) env sched target (seen d) with
  | (Raise e, w) => (Raise e, with_seen w d)
  | (Return open_ports, w) =>
      let d := note_table open_ports (with_seen w d) in
      match save_results (JsonPorts open_ports) ("ports_" +:+ target +:+ ".json") d with
      | (Fails _, d') => (Raise Exception, d')
      | (Ok _, d') => (Return open_ports, d')
      end
  end.

Definition fetch (url : string) (d : desk) : desk :=
  with_seen (note_fetch url (seen d)) d.

Definition sec_headers : list string :=
  ["X-Frame-Options"; "Content-Security-Policy"; "X-Content-Type-Options"].

(** The dictionary [tech] as [fingerprint_tech] fills it from a response. *)
Definition tech_of (r : response) : tech :=
  let server := match header r "Server" with Some v => v | None => "unknown" end in
  let language := match header r "X-Powered-By" with Some v => v | None => "unknown" end in
  let cms := if PyText.contains "WordPress" (text r) then "WordPress" else "unknown" in
  let security_headers :=
    foldl (fun m h => <[h := bool_decide (is_Some (header r h))]> m) ∅ sec_headers in
  mkTech server language cms security_headers.

(** The body of the [try] of [fingerprint_tech]. *)
Definition fingerprint_try (url : string) (d : desk) : attempt tech * desk :=
  let d := fetch url d in
  match http_get host url with
  | Fails message => (Fails message, d)
  | Ok r =>
      let tech := tech_of r in
      match netloc host url with
      | Fails message => (Fails message, d)
      | Ok loc =>
          match save_results (JsonTech tech) ("tech_" +:+ loc +:+ ".json") d with
          | (Fails message, d') => (Fails message, d')
          | (Ok _, d') => (Ok tech, d')
          end
      end
  end.

(** [AspenFramework.fingerprint_tech]: [None] is the empty dictionary. An
    exception raised by [log] in the handler goes to the caller. *)
Definition fingerprint_tech (url : string) (d : desk) : outcome (option tech) * desk :=
  let d := log_desk "Fingerprinting technology..." Info d in
  match fingerprint_try url d with
  | (Ok tech, d') => (Return (Some tech), d')
  | (Fails message, d') =>
      match log_exception ("Fingerprinting failed: " +:+ message) d' with
      | (Raise e, d'') => (Raise e, d'')
      | (Return _, d'') => (Return None, d'')
      end
  end.

(** The list [vulns] as [map_vulns] fills it from a response. *)
Definition findings (r : response) : list string :=
  let vulns : list string := [] in
  let vulns :=
    if PyText.contains "Index of /" (text r)
    then vulns ++ ["Directory listing enabled"] else vulns in
  let vulns :=
    if (status r =? 200)%Z && PyText.contains "default" (PyStr.lower (text r))
    then vulns ++ ["Default page detected"] else vulns in
  let missing_headers :=
    filter (fun h => header r h = None) ["X-Frame-Options"; "X-Content-Type-Options"] in
  let vulns :=
    match missing_headers with
    | [] => vulns
    | _ :: _ =>
        vulns ++ ["Missing security headers: " +:+ PyText.join ", " missing_headers]
    end in
  let vulns :=
    match header r "Server" with
    | Some v =>
        if PyText.contains "old" (PyStr.lower v)
        then vulns ++ ["Outdated server version"] else vulns
    | None => vulns
    end in
  vulns.

Definition report_of (vulns : list string) : string :=
  match vulns with
  | [] => "No basic vulnerabilities detected"
  | _ :: _ => PyText.join PyText.LF vulns
  end.

(** The body of the [try] of [map_vulns]. *)
Definition vulns_try (url : string) (d : desk) : attempt string * desk :=
  let d := fetch url d in
  match http_get host url with
  | Fails message => (Fails message, d)
  | Ok r =>
      let report := report_of (findings r) in
      match netloc host url with
      | Fails message => (Fails message, d)
      | Ok loc =>
          match save_results (Text report) ("vulns_" +:+ loc +:+ ".txt") d with
          | (Fails message, d') => (Fails message, d')
          | (Ok _, d') => (Ok report, d')
          end
      end
  end.

(** [AspenFramework.map_vulns]. An exception raised by [log] in the handler
    goes to the caller. *)
Definition map_vulns (url : string) (d : desk) : outcome string * desk :=
  let d := log_desk "Mapping vulnerabilities..." Info d in
  match vulns_try url d with
  | (Ok report, d') => (Return report, d')
  | (Fails message, d') =>
      match log_exception ("Vuln mapping failed: " +:+ message) d' with
      | (Raise e, d'') => (Raise e, d'')
      | (Return _, d'') => (Return "Error in vuln mapping", d'')
      end
  end.

(** The body of the [try] of [take_screenshot], its [except] included: the
    outcome is that of the handler when the body failed. *)
Definition screenshot_try (url : string) (d : desk) : outcome unit * desk :=
  let d := note_browser (Visited url) d in
  match driver_get host url with
  | Fails message => log_exception ("Screenshot failed: " +:+ message) d
  | Ok _ =>
      match netloc host url with
      | Fails message => log_exception ("Screenshot failed: " +:+ message) d
      | Ok loc =>
          let filename := loc +:+ ".png" in
          let filepath := PyText.path_join SCREENSHOTS_DIR filename in
          let d := note_browser (Shot filepath) d in
          match driver_save_screenshot host filepath with
          | Fails message => log_exception ("Screenshot failed: " +:+ message) d
          | Ok _ => (Return tt, log_desk ("Screenshot saved to " +:+ filepath) Success d)
          end
      end
  end.

(** [AspenFramework.take_screenshot]: the driver is created outside the
    [try], and [driver.quit()] runs in the [finally], after which an
    exception of the handler goes to the caller. *)
Definition take_screenshot (url : string) (d : desk) : outcome unit * desk :=
  let d := log_desk "Taking screenshot..." Info d in
  match Chrome host with
  | Fails _ => (Raise Exception, d)
  | Ok _ =>
      let d := note_browser Launched d in
      let tried := screenshot_try url d in
      let d := note_browser Closed tried.2 in
      match driver_quit host with
      | Fails _ => (Raise Exception, d)
      | Ok _ => (tried.1, d)
      end
  end.

(** The [try] around the port scan in [full_scan], with its bare [except]. *)
Definition port_scan_step (domain : string) (d : desk) : desk :=
  match gethostbyname host domain with
  | Fails _ => log_desk "Port scan skipped (DNS resolution failed)" Warning d
  | Ok target_ip =>
      match scan_ports_saved target_ip d with
      | (Raise _, d') => log_desk "Port scan skipped (DNS resolution failed)" Warning d'
      | (Return _, d') => d'
      end
  end.

(** [AspenFramework.full_scan]. *)
Definition full_scan (domain : string) (d : desk) : outcome unit * desk :=
  let d := log_desk "Starting full scan..." Info d in
  let url := "https://" +:+ domain in
  match enumerate_subdomains_saved domain d with
  | (Raise e, d) => (Raise e, d)
  | (Return _, d) =>
      let d := port_scan_step domain d in
      match take_screenshot url d with
      | (Raise e, d) => (Raise e, d)
      | (Return _, d) =>
          match fingerprint_tech url d with
          | (Raise e, d) => (Raise e, d)
          | (Return _, d) =>
              match map_vulns url d with
              | (Raise e, d) => (Raise e, d)
              | (Return _, d) => (Return tt, log_desk "Full scan complete" Success d)
              end
          end
      end
  end.

End Modules.

(** ** Vocabulary of the statements on the other modules *)

(** [needle] occurs in [hay]. *)
Definition occurs_in (needle hay : string) : Prop :=
  exists a b, hay = a +:+ needle +:+ b.

(** The line of [map_vulns] that names the security headers in a list. *)
Definition missing_line (names : list string) : string :=
  "Missing security headers: " +:+ PyText.join ", " names.

(** Every file of the second desk that the first did not have is in the
    results directory. *)
Definition only_results_added (d d' : desk) : Prop :=
  forall filepath : string,
    is_Some (disk d' !! filepath) ->
    is_Some (disk d !! filepath) \/ PyText.startswith filepath "results/" = true.

(** The path [save_results] writes a file name to. *)
Definition results_path (filename : string) : string :=
  PyText.path_join RESULTS_DIR filename.

(** The handler that logs this message raises: the run is not silent and
    rich rejects the text. *)
Definition handler_raises (opts : Options) (host : Host) (message : string) : bool :=
  negb (silent (engine opts)) && rich_rejects host message.

(** The [try] of [fingerprint_tech] or of [map_vulns] fails with the text
    [message]: the request raises, or [urlparse] raises, or the results are
    saved and their file cannot be opened. [prefix] and [ext] make the name
    of the file. *)
Definition try_fails (opts : Options) (host : Host) (prefix ext url message : string)
    : Prop :=
  http_get host url = Fails message
  \/ (exists r, http_get host url = Ok r /\ netloc host url = Fails message)
  \/ (exists r loc,
        http_get host url = Ok r
        /\ netloc host url = Ok loc
        /\ save opts = true
        /\ open_w host (results_path (prefix +:+ loc +:+ ext)) = Fails message).

(** The [try] of [take_screenshot] fails with the text [message]: loading
    the page raises, or [urlparse] raises, or saving the picture raises. *)
Definition screenshot_fails (host : Host) (url message : string) : Prop :=
  driver_get host url = Fails message
  \/ (exists u, driver_get host url = Ok u /\ netloc host url = Fails message)
  \/ (exists u loc,
        driver_get host url = Ok u
        /\ netloc host url = Ok loc
        /\ driver_save_screenshot host
             (PyText.path_join SCREENSHOTS_DIR (loc +:+ ".png")) = Fails message).

(** ** Concrete collaborators used in the examples of the other modules *)

Module Samples.

Definition args_full : Args := mkArgs None None false false false.
Definition args_silent : Args := mkArgs None None true true false.

Definition opts_plain : Options := mkOptions Examples.args0 false.
Definition opts_save : Options := mkOptions Examples.args0 true.
Definition opts_neg : Options := mkOptions Examples.args_neg false.

(** A directory listing served by an old Apache as its default page, with
    one of the two security headers. *)
Definition listing_page : response :=
  mkResponse 200 "<title>Index of /</title> Apache2 Default Page"
    (<["server" := "Apache/2.2 (Old)"]> (<["x-frame-options" := "DENY"]> ∅)).

(** A page with nothing to report. *)
Definition clean_page : response :=
  mkResponse 200 "<h1>Hello</h1>"
    (<["x-frame-options" := "DENY"]> (<["x-content-type-options" := "nosniff"]> ∅)).

(** A stand-in for the markup of rich: a text with a closing tag and no
    open tag is rejected. *)
Definition rejects_closing_tag (message : string) : bool :=
  PyText.contains "[/" message.

Definition host_with (page : response) (can_write : bool) : Host :=
  mkHost (fun _ => Ok page)
         (fun _ => Ok "example.com")
         (fun _ => if can_write then Ok tt else Fails "Permission denied")
         (fun _ => Ok "93.184.216.34")
         (Ok tt)
         (fun _ => Fails "timeout")
         (fun _ => Ok tt)
         (Ok tt)
         rejects_closing_tag.

Definition host_listing : Host := host_with listing_page true.
Definition host_clean : Host := host_with clean_page true.
Definition host_readonly : Host := host_with listing_page false.

(** No browser on the machine. *)
Definition host_headless : Host :=
  mkHost (fun _ => Ok clean_page) (fun _ => Ok "example.com") (fun _ => Ok tt)
         (fun _ => Ok "93.184.216.34") (Fails "chromedriver not found")
         (fun _ => Ok tt) (fun _ => Ok tt) (Ok tt) rejects_closing_tag.

(** Every request and every page load raises with a text that holds a
    closing tag. *)
Definition host_markup : Host :=
  mkHost (fun _ => Fails "no route to [/x]") (fun _ => Ok "example.com")
         (fun _ => Ok tt) (fun _ => Ok "93.184.216.34") (Ok tt)
         (fun _ => Fails "no route to [/x]") (fun _ => Ok tt) (Ok tt)
         rejects_closing_tag.

Definition opts_silent : Options := mkOptions args_silent false.

End Samples.
(** * Properties *)

(** ** Strings *)

Module PyStrFacts.
Import PyStr.

Lemma substring_all (s : string) : substring 0 (String.length s) s = s.
Proof. induction s as [|c s IH]; simpl; [reflexivity | now rewrite IH]. Qed.

Lemma substring_skip (p suf : string) :
  substring (String.length p) (String.length suf) (p +:+ suf) = suf.
Proof. induction p as [|c p IH]; simpl; [apply substring_all | exact IH]. Qed.

Lemma substring_split (n : nat) : forall s : string,
  (n <= String.length s)%nat ->
  s = substring 0 n s +:+ substring n (String.length s - n) s.
Proof.
  induction n as [|n IH]; intros s Hn.
  - destruct s; simpl; [reflexivity|]. now rewrite substring_all.
  - destruct s as [|c s]; simpl in *; [lia|].
    change (String c s = String c (substring 0 n s +:+ substring n (String.length s - n) s)).
    f_equal. apply IH. lia.
Qed.

Lemma length_app (p q : string) :
  String.length (p +:+ q) = (String.length p + String.length q)%nat.
Proof. induction p as [|c p IH]; simpl; [reflexivity | now rewrite IH]. Qed.

(** [endswith] holds exactly of the strings that are some prefix followed
    by the suffix. *)
Lemma endswith_spec (s suffix : string) :
  endswith s suffix = true <-> exists p, s = p +:+ suffix.
Proof.
  unfold endswith. rewrite andb_true_iff, Nat.leb_le, String.eqb_eq.
  split.
  - intros [Hle Heq].
    exists (substring 0 (String.length s - String.length suffix) s).
    pose proof (substring_split (String.length s - String.length suffix) s) as Hs.
    replace (String.length s - (String.length s - String.length suffix))%nat
      with (String.length suffix) in Hs by lia.
    rewrite Heq in Hs. apply Hs. lia.
  - intros [p ->]. rewrite length_app. split; [lia|].
    replace (String.length p + String.length suffix - String.length suffix)%nat
      with (String.length p) by lia.
    apply substring_skip.
Qed.

Lemma lower_char_idemp (c : ascii) : lower_char (lower_char c) = lower_char c.
Proof. destruct c as [[] [] [] [] [] [] [] []]; reflexivity. Qed.

Lemma lower_idemp (s : string) : lower (lower s) = lower s.
Proof.
  induction s as [|c s IH]; simpl; [reflexivity|].
  now rewrite lower_char_idemp, IH.
Qed.

End PyStrFacts.

(** ** The scheduler *)

Lemma fair_fifo : fair fifo.
Proof. intros A l. reflexivity. Qed.

Lemma fair_lifo : fair lifo.
Proof. intros A l. unfold lifo. symmetry. apply Permutation_rev. Qed.

Lemma fair_elem_of (sched : scheduler) (A : Type) (l : list A) (x : A) :
  fair sched -> x ∈ sched A l <-> x ∈ l.
Proof. intros Hfair. now rewrite (Hfair A l). Qed.

Lemma pool_accepts_run {A S : Type} (args : Args) (sched : scheduler)
    (task : A -> S -> S) (items : list A) (s : S) :
  pool_accepts args ->
  ThreadPoolExecutor sched (or_int (threads args) DEFAULT_THREADS) task items s
  = Return (foldl (fun acc x => task x acc) s (sched A items)).
Proof.
  unfold pool_accepts, ThreadPoolExecutor. intros Hpos.
  destruct (Z.leb_spec (or_int (threads args) DEFAULT_THREADS) 0); [lia | reflexivity].
Qed.

(** ** Subdomain enumeration *)

Section EnumerateFacts.

Variable args : Args.
Variable env : Env.
Variable domain : string.

Lemma add_answers (name : string) (answers : list string) (s : gset string) :
  foldl (fun s _rdata => {[name]} ∪ s) s answers
  = match answers with [] => s | _ :: _ => {[name]} ∪ s end.
Proof.
  revert s. induction answers as [|a answers IH]; intros s; simpl; [reflexivity|].
  rewrite IH. destruct answers; [reflexivity|].
  now rewrite (assoc_L (∪)), (idemp_L (∪)).
Qed.

Lemma check_subdomain_set (sub : string) (st : enum_state) :
  (check_subdomain env domain sub st).1
  = if confirms env (candidate domain sub)
    then {[candidate domain sub]} ∪ st.1 else st.1.
Proof.
  unfold check_subdomain, confirms, candidate.
  destruct (resolve env (sub +:+ "." +:+ domain)) as [answers|]; simpl; [|reflexivity].
  rewrite add_answers. destruct answers; reflexivity.
Qed.

Lemma check_subdomain_world (sub : string) (st : enum_state) :
  (check_subdomain env domain sub st).2 = note_query (candidate domain sub) st.2.
Proof.
  unfold check_subdomain, candidate.
  destruct (resolve env (sub +:+ "." +:+ domain)); reflexivity.
Qed.

(** The names in the set once the pool has run the tasks of a list. *)
Lemma pool_check_elem (l : list string) : forall (st : enum_state) (x : string),
  x ∈ (foldl (fun acc sub => check_subdomain env domain sub acc) st l).1
  <-> x ∈ st.1 \/ exists label, label ∈ l /\ x = candidate domain label
                                /\ confirms env x = true.
Proof.
  induction l as [|sub l IH]; intros st x; simpl.
  - split; [now left|]. intros [H|(label & H & _)]; [exact H|].
    now apply elem_of_nil in H.
  - rewrite IH, check_subdomain_set. split.
    + intros [H|(label & Hin & Heq & Hc)].
      * destruct (confirms env (candidate domain sub)) eqn:Hsub.
        -- apply elem_of_union in H as [H|H]; [|now left].
           apply elem_of_singleton in H. subst x.
           right. exists sub. split; [left|now split].
        -- now left.
      * right. exists label. split; [now right|now split].
    + intros [H|(label & Hin & Heq & Hc)].
      * left. destruct (confirms env (candidate domain sub)); [|exact H].
        apply elem_of_union. now right.
      * apply elem_of_cons in Hin as [->|Hin].
        -- left. subst x. rewrite Hc.
           apply elem_of_union. left. now apply elem_of_singleton.
        -- right. exists label. now repeat split.
Qed.

(** The worlds only grow by the queries. *)
Lemma pool_check_queried (l : list string) : forall st : enum_state,
  queried (foldl (fun acc sub => check_subdomain env domain sub acc) st l).2
  = (queried st.2 ++ map (candidate domain) l)%list.
Proof.
  induction l as [|sub l IH]; intros st; simpl.
  - now rewrite app_nil_r.
  - rewrite IH, check_subdomain_world. simpl. now rewrite <- app_assoc.
Qed.

Lemma api_fallback_set (st : enum_state) :
  (api_fallback args env domain st).1 = (api_try env domain st.1).1.
Proof.
  unfold api_fallback. destruct (api_try env domain st.1) as [s [[]|e]]; reflexivity.
Qed.

(** The loop of the passive source only adds names. *)
Lemma add_entries_mono (data : list (option string)) : forall s : gset string,
  s ⊆ (add_entries domain data s).1.
Proof.
  induction data as [|[nv|] data IH]; intros s; simpl; [done| |done].
  destruct (PyStr.endswith _ _); [|apply IH].
  etrans; [|apply IH]. apply union_subseteq_r.
Qed.

(** A record that raises stops the loop with an exception; without one the
    loop completes. *)
Lemma add_entries_outcome (data : list (option string)) : forall s : gset string,
  (add_entries domain data s).2
  = if decide (None ∈ data) then Raise Exception else Return tt.
Proof.
  induction data as [|[nv|] data IH]; intros s; cbn [add_entries snd].
  - destruct (decide (None ∈ [])) as [H|H]; [|reflexivity].
    now apply elem_of_nil in H.
  - assert (Hiff : None ∈ Some nv :: data <-> None ∈ data).
    { rewrite elem_of_cons. split; [intros [?|?]; [discriminate|assumption] | now right]. }
    destruct (PyStr.endswith _ _); rewrite IH;
      destruct (decide (None ∈ data)) as [Hd|Hd];
      destruct (decide (None ∈ Some nv :: data)) as [Hd'|Hd'];
      try reflexivity; exfalso; tauto.
  - destruct (decide (None ∈ None :: data)) as [H|H]; [reflexivity|].
    exfalso. apply H. left.
Qed.

(** When every record parses, the loop adds exactly the lower-cased values
    that end with the dot and the domain. *)
Lemma add_entries_elem (data : list (option string)) :
  None ∉ data ->
  forall (s : gset string) (x : string),
    x ∈ (add_entries domain data s).1
    <-> x ∈ s \/ exists name_value, Some name_value ∈ data
                  /\ x = PyStr.lower name_value
                  /\ PyStr.endswith x ("." +:+ domain) = true.
Proof.
  induction data as [|[nv|] data IH]; intros Hnone s x; simpl.
  - split; [now left|]. intros [H|(nv & H & _)]; [exact H|].
    now apply elem_of_nil in H.
  - assert (Hd : None ∉ data) by (intros H; apply Hnone; now right).
    destruct (PyStr.endswith (PyStr.lower nv) ("." +:+ domain)) eqn:He;
      rewrite (IH Hd); split.
    + intros [H|(nv' & Hin & Heq & Hc)].
      * apply elem_of_union in H as [H|H]; [|now left].
        apply elem_of_singleton in H. subst x.
        right. exists nv. split; [left|now split].
      * right. exists nv'. split; [now right|now split].
    + intros [H|(nv' & Hin & Heq & Hc)];
        [left; apply elem_of_union; now right|].
      apply elem_of_cons in Hin as [Hin|Hin].
      * inversion Hin; subst. left.
        apply elem_of_union. left. now apply elem_of_singleton.
      * right. exists nv'. now repeat split.
    + intros [H|(nv' & Hin & Heq & Hc)]; [now left|].
      right. exists nv'. split; [now right|now split].
    + intros [H|(nv' & Hin & Heq & Hc)]; [now left|].
      apply elem_of_cons in Hin as [Hin|Hin].
      * inversion Hin; subst. congruence.
      * right. exists nv'. now repeat split.
  - exfalso. apply Hnone. left.
Qed.

End EnumerateFacts.

(** The labels of the wordlist, read off the lines of the file. *)
Lemma load_wordlist_elem (lines : list string) (label : string) :
  label ∈ load_wordlist lines
  <-> exists line, line ∈ lines /\ label = PyStr.strip line /\ PyStr.strip line <> "".
Proof.
  unfold load_wordlist. rewrite list_elem_of_fmap. split.
  - intros (line & -> & Hline). apply list_elem_of_filter in Hline as [Ht Hin].
    exists line. split; [exact Hin|]. split; [reflexivity|].
    intros Hempty. rewrite Hempty in Ht. discriminate.
  - intros (line & Hin & -> & Hne). exists line. split; [reflexivity|].
    apply list_elem_of_filter. split; [|exact Hin].
    destruct (PyStr.strip line); [contradiction | reflexivity].
Qed.

Lemma rstrip_plain (s : string) :
  (forall c : ascii, In c (list_ascii_of_string s) -> PyStr.isspace c = false) ->
  PyStr.rstrip s = s.
Proof.
  induction s as [|c s IH]; intros Hplain; cbn; [reflexivity|].
  rewrite IH by (intros c' Hc'; apply Hplain; now right).
  destruct s; [|reflexivity].
  now rewrite (Hplain c) by now left.
Qed.

(** Stripping leaves a plain label as it is. *)
Lemma strip_plain (label : string) : plain_label label -> PyStr.strip label = label.
Proof.
  intros [_ Hplain]. unfold PyStr.strip.
  assert (Hl : PyStr.lstrip label = label).
  { destruct label as [|c s]; cbn; [reflexivity|].
    now rewrite (Hplain c) by now left. }
  rewrite Hl. now apply rstrip_plain.
Qed.

Lemma load_wordlist_plain (lines : list string) (label : string) :
  Forall plain_label lines ->
  label ∈ load_wordlist lines <-> label ∈ lines.
Proof.
  intros Hplain. rewrite load_wordlist_elem. rewrite Forall_forall in Hplain.
  split.
  - intros (line & Hin & -> & _). now rewrite (strip_plain line (Hplain line Hin)).
  - intros Hin. exists label. rewrite (strip_plain label (Hplain label Hin)).
    split; [exact Hin|]. split; [reflexivity|]. apply (Hplain label Hin).
Qed.

Section EnumerateTheorems.

Variable args : Args.
Variable env : Env.
Variable domain : string.

Lemma api_try_down (s : gset string) :
  passive_down env domain = true -> (api_try env domain s).1 = s.
Proof.
  unfold passive_down, api_try.
  destruct (requests_get env (crt_sh_url domain)) as [|code [data|]]; [reflexivity| |].
  - rewrite orb_false_r. intros H. apply negb_true_iff in H. now rewrite H.
  - intros _. now destruct (code =? 200).
Qed.

(** The run of the wordlist block on a file that can be read. *)
Lemma wordlist_stage_run (sched : scheduler) (lines : list string) (st : enum_state) :
  pool_accepts args ->
  readable_wordlist args env lines ->
  wordlist_stage args env sched domain st
  = Return (foldl (fun acc sub => check_subdomain env domain sub acc) st
              (sched string (load_wordlist lines))).
Proof.
  intros Hpool [Hread Hopen]. unfold wordlist_stage.
  now rewrite Hread, Hopen, (pool_accepts_run args sched _ _ _ Hpool).
Qed.

(** The names the wordlist block adds, read off the lines of the file. *)
Lemma wordlist_names (sched : scheduler) (lines : list string) (st : enum_state)
    (x : string) :
  fair sched ->
  x ∈ (foldl (fun acc sub => check_subdomain env domain sub acc) st
         (sched string (load_wordlist lines))).1
  <-> x ∈ st.1
      \/ exists line, line ∈ lines
                      /\ PyStr.strip line <> ""
                      /\ x = PyStr.strip line +:+ "." +:+ domain
                      /\ confirms env x = true.
Proof.
  intros Hfair. rewrite pool_check_elem. split.
  - intros [H|(label & Hin & Hx & Hc)]; [now left|]. right.
    apply (fair_elem_of sched _ _ _ Hfair), load_wordlist_elem in Hin
      as (line & Hline & -> & Hne).
    exists line. now repeat split.
  - intros [H|(line & Hline & Hne & Hx & Hc)]; [now left|]. right.
    exists (PyStr.strip line). split; [|now split].
    apply (fair_elem_of sched _ _ _ Hfair), load_wordlist_elem.
    exists line. now repeat split.
Qed.

(** C1. With a wordlist file that can be read and no passive source, the
    set returned holds exactly the names [label.domain] that the resolver
    confirms with an address record, where the labels are the lines of the
    file, stripped, that are not blank; for a wordlist of plain labels these
    are the names [label.domain] for the labels of the wordlist. *)
Theorem enumerate_wordlist_exact (sched : scheduler) (w : world) (lines : list string) :
  fair sched ->
  pool_accepts args ->
  readable_wordlist args env lines ->
  passive_down env domain = true ->
  exists s : gset string,
    (enumerate_subdomains args env sched domain w).1 = Return s
    /\ (forall x : string,
          x ∈ s <-> exists line, line ∈ lines
                                /\ PyStr.strip line <> ""
                                /\ x = PyStr.strip line +:+ "." +:+ domain
                                /\ confirms env x = true)
    /\ (Forall plain_label lines ->
        forall x : string,
          x ∈ s <-> exists label, label ∈ lines
                                 /\ x = label +:+ "." +:+ domain
                                 /\ confirms env x = true).
Proof.
  intros Hfair Hpool Hfile Hdown.
  unfold enumerate_subdomains.
  rewrite (wordlist_stage_run sched lines _ Hpool Hfile).
  eexists. split; [reflexivity|].
  assert (Hgen : forall x : string,
            x ∈ (api_fallback args env domain
                   (foldl (fun acc sub => check_subdomain env domain sub acc)
                      (∅, log args "Starting subdomain enumeration..." Info w)
                      (sched string (load_wordlist lines)))).1
            <-> exists line, line ∈ lines
                            /\ PyStr.strip line <> ""
                            /\ x = PyStr.strip line +:+ "." +:+ domain
                            /\ confirms env x = true).
  { intros x. rewrite api_fallback_set, (api_try_down _ Hdown).
    rewrite (wordlist_names sched lines _ x Hfair). cbn [fst]. split.
    - intros [H|H]; [now apply not_elem_of_empty in H | exact H].
    - intros H. now right. }
  split; [exact Hgen|].
  intros Hplain x. cbn [fst]. rewrite Hgen. rewrite Forall_forall in Hplain.
  split.
  - intros (line & Hin & _ & Hx & Hc).
    rewrite (strip_plain line (Hplain line Hin)) in Hx. now exists line.
  - intros (label & Hin & Hx & Hc). exists label.
    rewrite (strip_plain label (Hplain label Hin)).
    repeat split; try assumption. apply (Hplain label Hin).
Qed.

(** C9. Two runs against the same resolver, files and passive source give
    the same outcome, whatever order the pool completes the probes in and
    whatever was observed before. *)
Theorem enumerate_deterministic (sched1 sched2 : scheduler) (w1 w2 : world) :
  fair sched1 ->
  fair sched2 ->
  (enumerate_subdomains args env sched1 domain w1).1
  = (enumerate_subdomains args env sched2 domain w2).1.
Proof.
  intros Hf1 Hf2. unfold enumerate_subdomains, wordlist_stage.
  destruct (read_lines env (or_str (wordlist args) DEFAULT_WORDLIST)) as [lines|].
  - destruct (unreadable env (or_str (wordlist args) DEFAULT_WORDLIST)); [reflexivity|].
    unfold ThreadPoolExecutor.
    destruct (or_int (threads args) DEFAULT_THREADS <=? 0); [reflexivity|].
    cbn [fst]. rewrite !api_fallback_set. do 3 f_equal.
    apply set_eq. intros x. rewrite !pool_check_elem. cbn [fst].
    split; (intros [H|(label & Hin & Hrest)]; [now left|]; right;
            exists label; split; [|exact Hrest]).
    + apply (proj2 (fair_elem_of sched2 _ _ _ Hf2)).
      exact (proj1 (fair_elem_of sched1 _ _ _ Hf1) Hin).
    + apply (proj2 (fair_elem_of sched1 _ _ _ Hf1)).
      exact (proj1 (fair_elem_of sched2 _ _ _ Hf2) Hin).
  - cbn [fst]. now rewrite !api_fallback_set.
Qed.

Lemma api_fallback_mono (st : enum_state) :
  st.1 ⊆ (api_fallback args env domain st).1.
Proof.
  rewrite api_fallback_set. unfold api_try.
  destruct (requests_get env (crt_sh_url domain)) as [|code [data|]]; [done| |].
  - destruct (code =? 200); [apply add_entries_mono | done].
  - now destruct (code =? 200).
Qed.

(** C6, as the code has it. A 200 response whose records all parse adds
    exactly the lower-cased values that end with the dot and the domain
    and prints nothing; a request, body or record that raises is swallowed
    and logged as a warning; any other status is ignored without a
    warning. Names collected before are always kept, and once the wordlist
    block is done the call returns. *)
Theorem passive_source_contained (st : enum_state) :
  let st' := api_fallback args env domain st in
  let w := note_fetch (crt_sh_url domain) st.2 in
  st.1 ⊆ st'.1
  /\ (forall data,
        requests_get env (crt_sh_url domain) = HttpResponse 200 (Some data) ->
        None ∉ data ->
        st'.2 = w
        /\ forall x, x ∈ st'.1
             <-> x ∈ st.1 \/ exists name_value, Some name_value ∈ data
                              /\ x = PyStr.lower name_value
                              /\ PyStr.endswith x ("." +:+ domain) = true)
  /\ (requests_get env (crt_sh_url domain) = HttpRaise
      \/ requests_get env (crt_sh_url domain) = HttpResponse 200 None
      \/ (exists data, requests_get env (crt_sh_url domain) = HttpResponse 200 (Some data)
                       /\ None ∈ data) ->
      st'.2 = log args "API fallback failed" Warning w)
  /\ (forall status_code json,
        requests_get env (crt_sh_url domain) = HttpResponse status_code json ->
        status_code <> 200 ->
        st' = (st.1, w))
  /\ (forall sched w0 st0,
        wordlist_stage args env sched domain
          (∅, log args "Starting subdomain enumeration..." Info w0) = Return st0 ->
        enumerate_subdomains args env sched domain w0
        = (Return (api_fallback args env domain st0).1,
           (api_fallback args env domain st0).2)).
Proof.
  cbn zeta. split; [apply api_fallback_mono|]. split; [|split; [|split]].
  - intros data Hget Hnone. split.
    + unfold api_fallback, api_try. rewrite Hget. cbn.
      pose proof (add_entries_outcome domain data st.1) as Hout.
      destruct (add_entries domain data st.1) as [s o]. cbn in Hout. subst o.
      destruct (decide (None ∈ data)); [contradiction | reflexivity].
    + intros x. rewrite api_fallback_set. unfold api_try. rewrite Hget. cbn.
      now apply add_entries_elem.
  - intros [Hget|[Hget|(data & Hget & Hin)]];
      unfold api_fallback, api_try; rewrite Hget; cbn; try reflexivity.
    pose proof (add_entries_outcome domain data st.1) as Hout.
    destruct (add_entries domain data st.1) as [s o]. cbn in Hout. subst o.
    destruct (decide (None ∈ data)); [reflexivity | contradiction].
  - intros code json Hget Hcode. unfold api_fallback, api_try. rewrite Hget.
    destruct (Z.eqb_spec code 200); [contradiction | reflexivity].
  - intros sched w0 st0 Hstage. unfold enumerate_subdomains.
    now rewrite Hstage.
Qed.

End EnumerateTheorems.

Lemma scenario_A_labels : Forall plain_label ["www"; "mail"].
Proof.
  repeat constructor; try discriminate;
    intros c Hc; cbn in Hc;
    repeat (destruct Hc as [<-|Hc]; [reflexivity|]); destruct Hc.
Qed.

(** C1 on scenario A of the design document: the wordlist is www and mail,
    the resolver confirms www.example.com only, and the set returned is
    that one name. *)
Lemma enumerate_wordlist_exact_scenario_A :
  fair lifo
  /\ pool_accepts Examples.args0
  /\ readable_wordlist Examples.args0 Examples.envA ["www"; "mail"]
  /\ passive_down Examples.envA "example.com" = true
  /\ (enumerate_subdomains Examples.args0 Examples.envA lifo "example.com" world0).1
     = Return {["www.example.com"]}.
Proof.
  assert (H1 : fair lifo) by exact fair_lifo.
  assert (H2 : pool_accepts Examples.args0) by (unfold pool_accepts; vm_compute; reflexivity).
  assert (H3 : readable_wordlist Examples.args0 Examples.envA ["www"; "mail"])
    by (split; reflexivity).
  assert (H4 : passive_down Examples.envA "example.com" = true) by reflexivity.
  split; [exact H1|]. split; [exact H2|]. split; [exact H3|]. split; [exact H4|].
  destruct (enumerate_wordlist_exact Examples.args0 Examples.envA "example.com"
              lifo world0 ["www"; "mail"] H1 H2 H3 H4) as (s & Hs & _ & Hplain).
  rewrite Hs. f_equal. apply set_eq. intros x.
  rewrite (Hplain scenario_A_labels x), elem_of_singleton. split.
  - intros (label & Hin & -> & Hc).
    apply elem_of_cons in Hin as [->|Hin]; [reflexivity|].
    apply list_elem_of_singleton in Hin as ->. vm_compute in Hc. discriminate.
  - intros ->. exists "www". split; [left | split; reflexivity].
Defined.

(** C9 on scenario A: first-in-first-out and last-in-first-out completion
    return the same set. *)
Lemma enumerate_deterministic_scenario_A :
  fair fifo /\ fair lifo
  /\ (enumerate_subdomains Examples.args0 Examples.envA fifo "example.com" world0).1
     = (enumerate_subdomains Examples.args0 Examples.envA lifo "example.com" world0).1.
Proof.
  split; [exact fair_fifo|]. split; [exact fair_lifo|].
  exact (enumerate_deterministic Examples.args0 Examples.envA "example.com"
           fifo lifo world0 world0 fair_fifo fair_lifo).
Defined.

(** C6 on scenario C: only the record of the domain is added, lower-cased. *)
Lemma passive_source_contained_scenario_C :
  "sub.example.com" ∈ (api_fallback Examples.args0 Examples.envC "example.com" (∅, world0)).1
  /\ "other.net" ∉ (api_fallback Examples.args0 Examples.envC "example.com" (∅, world0)).1.
Proof.
  destruct (passive_source_contained Examples.args0 Examples.envC "example.com" (∅, world0))
    as (_ & Hok & _).
  destruct (Hok [Some "Sub.Example.com"; Some "other.net"] eq_refl) as [_ Helem].
  { intros H. apply elem_of_cons in H as [H|H]; [discriminate|].
    apply elem_of_cons in H as [H|H]; [discriminate|]. now apply elem_of_nil in H. }
  split.
  - apply Helem. right. exists "Sub.Example.com".
    split; [left | split; reflexivity].
  - intros H. apply Helem in H as [H|(nv & _ & _ & Hends)].
    + now apply not_elem_of_empty in H.
    + vm_compute in Hends. discriminate.
Defined.

(** C6 as stated fails on a status other than 200: the failure is ignored
    but no warning is printed, although the run is not silent. *)
Lemma non_200_status_not_logged :
  requests_get Examples.env503 (crt_sh_url "example.com") = HttpResponse 503 None
  /\ silent Examples.args0 = false
  /\ enumerate_subdomains Examples.args0 Examples.env503 fifo "example.com" world0
     = (Return ∅, mkWorld [] [] ["https://crt.sh/?q=example.com&output=json"] []).
Proof. repeat split. Qed.

(** C7 fails on a wordlist in capitals: the name built from the wordlist is
    stored as written, next to the lower-cased name of the same host from
    the passive source. *)
Lemma wordlist_name_keeps_case :
  (enumerate_subdomains Examples.args0 Examples.envCaps fifo "example.com" world0).1
  = Return {["WWW.example.com"; "www.example.com"]}
  /\ PyStr.lower "WWW.example.com" <> "WWW.example.com".
Proof. split; [vm_compute; reflexivity | discriminate]. Qed.

(** ** Port scanning *)

Lemma testbit_0x12 (i : Z) :
  0 <= i -> Z.testbit 0x12 i = (i =? SYN_bit) || (i =? ACK_bit).
Proof.
  intros Hi. unfold SYN_bit, ACK_bit.
  destruct (Z_lt_le_dec i 5) as [Hlt|Hge].
  - assert (Hcases : i = 0 \/ i = 1 \/ i = 2 \/ i = 3 \/ i = 4) by lia.
    destruct Hcases as [->|[->|[->|[->| ->]]]]; reflexivity.
  - rewrite Z.bits_above_log2; [|lia|change (Z.log2 18) with 4; lia].
    destruct (Z.eqb_spec i 1), (Z.eqb_spec i 4); (lia || reflexivity).
Qed.

Lemma only_syn_ack_iff (resp : reply) :
  only_syn_ack resp <-> TCP_flags resp = 0x12.
Proof.
  unfold only_syn_ack. split.
  - intros Hbits. apply Z.bits_inj'. intros i Hi.
    now rewrite Hbits, testbit_0x12.
  - intros -> i Hi. now apply testbit_0x12.
Qed.

Section ScanFacts.

Variable env : Env.
Variable target : string.

Lemma scan_port_map (port : Z) (st : scan_state) :
  (scan_port env target port st).1
  = match verdict env target port with
    | Some service => <[port := service]> st.1
    | None => st.1
    end.
Proof.
  unfold scan_port, verdict.
  destruct (syn_ack (sr1 env (mkPacket target port "S") TIMEOUT)); reflexivity.
Qed.

Lemma scan_port_sent (port : Z) (st : scan_state) :
  sent (scan_port env target port st).2
  = (sent st.2 ++ probes_of env target port)%list.
Proof.
  unfold scan_port, probes_of.
  destruct (sr1 env (mkPacket target port "S") TIMEOUT) as [| |resp|];
    cbn [syn_ack sr1_called andb]; try (cbn; now rewrite ?app_nil_r).
  destruct (haslayer_TCP resp && (TCP_flags resp =? 18));
    [|cbn; now rewrite ?app_nil_r].
  destruct (sr1_called (sr1 env (mkPacket target port "A") 1)); cbn;
    now rewrite <- ?app_assoc, ?app_nil_r.
Qed.

(** What the dictionary holds for a port once the pool has run the tasks
    of a list: the verdict of its own probe when the port is in the list,
    and what was there before otherwise. *)
Lemma pool_scan_lookup (l : list Z) : forall (st : scan_state) (p : Z),
  (foldl (fun acc port => scan_port env target port acc) st l).1 !! p
  = match (if decide (p ∈ l) then verdict env target p else None) with
    | Some service => Some service
    | None => st.1 !! p
    end.
Proof.
  induction l as [|x l IH]; intros st p; cbn [foldl].
  - destruct (decide (p ∈ [])) as [H|_]; [now apply elem_of_nil in H | reflexivity].
  - rewrite IH, scan_port_map.
    destruct (decide (p ∈ l)) as [Hl|Hl];
      destruct (decide (p ∈ x :: l)) as [Hxl|Hxl];
      try (exfalso; apply Hxl; now right).
    + destruct (verdict env target p) eqn:Hp; [reflexivity|].
      destruct (decide (x = p)) as [->|Hne]; [now rewrite Hp|].
      destruct (verdict env target x); [now apply lookup_insert_ne | reflexivity].
    + apply elem_of_cons in Hxl as [->|Hin]; [|contradiction].
      destruct (verdict env target x); [apply lookup_insert_eq | reflexivity].
    + assert (Hne : x <> p) by (intros ->; apply Hxl; left).
      destruct (verdict env target x); [now apply lookup_insert_ne | reflexivity].
Qed.

Lemma pool_scan_sent (l : list Z) : forall st : scan_state,
  sent (foldl (fun acc port => scan_port env target port acc) st l).2
  = (sent st.2 ++ flat_map (probes_of env target) l)%list.
Proof.
  induction l as [|x l IH]; intros st; cbn [foldl flat_map].
  - now rewrite app_nil_r.
  - now rewrite IH, scan_port_sent, <- app_assoc.
Qed.

Lemma verdict_labels (port : Z) (service : string) :
  verdict env target port = Some service ->
  service = "unknown" \/ service = "detected".
Proof.
  unfold verdict.
  destruct (syn_ack _); [|discriminate].
  destruct (banner_seen _); intros [= <-]; [now right | now left].
Qed.

Lemma verdict_is_Some (port : Z) :
  is_Some (verdict env target port)
  <-> syn_ack (sr1 env (mkPacket target port "S") TIMEOUT) = true.
Proof.
  unfold verdict. destruct (syn_ack _).
  - split; [reflexivity | intros _; eexists; reflexivity].
  - split; [intros [v Hv]; discriminate | discriminate].
Qed.

End ScanFacts.

Lemma ports_range (args : Args) (port : Z) :
  port ∈ ports args
  <-> if top_ports args then 1 <= port <= 1024 else 0 <= port <= 65535.
Proof.
  unfold ports. destruct (top_ports args); rewrite elem_of_seqZ; lia.
Qed.

Lemma log_sent (args : Args) (message : string) (l : level) (w : world) :
  sent (log args message l w) = sent w /\ queried (log args message l w) = queried w.
Proof.
  unfold log. destruct (silent args); [now split|].
  destruct l; try (now split). destruct (verbose args); now split.
Qed.

(** The run of [scan_ports] when the pool accepts its limit. *)
Lemma scan_ports_run (args : Args) (env : Env) (sched : scheduler)
    (target : string) (w : world) :
  pool_accepts args ->
  scan_ports args env sched target w
  = let st := foldl (fun acc port => scan_port env target port acc)
                (∅, log args "Starting port scan..." Info w) (sched Z (ports args)) in
    (Return st.1, st.2).
Proof.
  intros Hpool. unfold scan_ports.
  now rewrite (pool_accepts_run args sched _ _ _ Hpool).
Qed.

Lemma scan_ports_lookup (args : Args) (env : Env) (sched : scheduler)
    (target : string) (w : world) :
  fair sched ->
  pool_accepts args ->
  exists m : gmap Z string,
    (scan_ports args env sched target w).1 = Return m
    /\ forall port : Z,
         m !! port = if decide (port ∈ ports args) then verdict env target port else None.
Proof.
  intros Hfair Hpool. rewrite (scan_ports_run _ _ _ _ _ Hpool). cbn zeta.
  eexists. split; [reflexivity|]. intros port. cbn [fst].
  rewrite pool_scan_lookup. cbn [fst]. rewrite lookup_empty.
  destruct (decide (port ∈ sched Z (ports args))) as [H|H];
    destruct (decide (port ∈ ports args)) as [H'|H'].
  - now destruct (verdict env target port).
  - exfalso. apply H'. exact (proj1 (fair_elem_of sched _ _ _ Hfair) H).
  - exfalso. apply H. exact (proj2 (fair_elem_of sched _ _ _ Hfair) H').
  - reflexivity.
Qed.

Section ScanTheorems.

Variable args : Args.
Variable env : Env.
Variable sched : scheduler.
Variable target : string.
Variable w : world.

(** C2. The map returned by the scan has an entry for a port exactly when
    the port is in the range scanned and its SYN probe was answered with
    SYN-ACK; a port whose probe was not is absent from the map. *)
Theorem open_ports_exact :
  fair sched ->
  pool_accepts args ->
  exists m : gmap Z string,
    (scan_ports args env sched target w).1 = Return m
    /\ (forall port : Z,
          is_Some (m !! port)
          <-> port ∈ ports args
              /\ syn_ack (sr1 env (mkPacket target port "S") TIMEOUT) = true)
    /\ (forall port : Z,
          syn_ack (sr1 env (mkPacket target port "S") TIMEOUT) = false ->
          m !! port = None).
Proof.
  intros Hfair Hpool.
  destruct (scan_ports_lookup args env sched target w Hfair Hpool) as (m & Hm & Hlook).
  exists m. split; [exact Hm|]. split; intros port.
  - rewrite Hlook, <- verdict_is_Some.
    destruct (decide (port ∈ ports args)) as [Hin|Hin].
    + split; [now split | now intros [_ H]].
    + split; [intros [v Hv]; discriminate | now intros [H _]].
  - intros Hclosed. rewrite Hlook.
    destruct (decide (port ∈ ports args)); [|reflexivity].
    unfold verdict. now rewrite Hclosed.
Qed.

(** C5. A port answered with SYN-ACK is recorded whatever the ACK probe
    brings: with the label detected when its reply has a TCP layer, with
    the label unknown when there is no reply, no TCP layer or an error. *)
Theorem ack_probe_only_labels :
  fair sched ->
  pool_accepts args ->
  exists m : gmap Z string,
    (scan_ports args env sched target w).1 = Return m
    /\ forall port : Z,
         port ∈ ports args ->
         syn_ack (sr1 env (mkPacket target port "S") TIMEOUT) = true ->
         let banner := sr1 env (mkPacket target port "A") 1 in
         m !! port = Some (if banner_seen banner then "detected" else "unknown")
         /\ (forall resp, banner = Sr1Reply resp -> haslayer_TCP resp = true ->
             m !! port = Some "detected")
         /\ (banner = Sr1None \/ banner = Sr1Raise
             \/ (exists resp, banner = Sr1Reply resp /\ haslayer_TCP resp = false) ->
             m !! port = Some "unknown").
Proof.
  intros Hfair Hpool.
  destruct (scan_ports_lookup args env sched target w Hfair Hpool) as (m & Hm & Hlook).
  exists m. split; [exact Hm|]. intros port Hin Hopen banner.
  assert (Hport : m !! port
                  = Some (if banner_seen banner then "detected" else "unknown")).
  { rewrite Hlook, decide_True by exact Hin. unfold verdict. now rewrite Hopen. }
  split; [exact Hport|]. split.
  - intros resp Hb Htcp. rewrite Hport, Hb. cbn. now rewrite Htcp.
  - intros [Hb|[Hb|(resp & Hb & Htcp)]]; rewrite Hport, Hb; cbn;
      [reflexivity | reflexivity | now rewrite Htcp].
Qed.

(** C10. Every label in the map returned is unknown or detected, and every
    key is a port of the range selected: 1 to 1024 with the top-ports
    option, 0 to 65535 without. *)
Theorem open_ports_labels_and_range :
  fair sched ->
  pool_accepts args ->
  exists m : gmap Z string,
    (scan_ports args env sched target w).1 = Return m
    /\ forall (port : Z) (service : string),
         m !! port = Some service ->
         (service = "unknown" \/ service = "detected")
         /\ (if top_ports args then 1 <= port <= 1024 else 0 <= port <= 65535).
Proof.
  intros Hfair Hpool.
  destruct (scan_ports_lookup args env sched target w Hfair Hpool) as (m & Hm & Hlook).
  exists m. split; [exact Hm|]. intros port service. rewrite Hlook.
  destruct (decide (port ∈ ports args)) as [Hin|Hin]; [|discriminate].
  intros Hv. split; [exact (verdict_labels env target port service Hv)|].
  now apply ports_range.
Qed.

(** C4, as the code has it. A probe that raises, a permission error
    included, only leaves its port out of the map: the scan goes on to
    every port of the range, sends a SYN segment for each port whose packet
    can be built, and returns its map normally, empty when every probe
    raises. When no packet can be built nothing is sent, and the scan
    returns the empty map all the same. *)
Theorem probe_error_not_fatal :
  fair sched ->
  pool_accepts args ->
  exists (m : gmap Z string) (w' : world),
    scan_ports args env sched target w = (Return m, w')
    /\ sent w' ≡ₚ (sent w ++ flat_map (probes_of env target) (ports args))%list
    /\ (forall port : Z,
          port ∈ ports args ->
          sr1_called (sr1 env (mkPacket target port "S") TIMEOUT) = true ->
          (mkPacket target port "S", TIMEOUT) ∈ sent w')
    /\ (forall port : Z,
          sr1 env (mkPacket target port "S") TIMEOUT = Sr1Raise
          \/ sr1 env (mkPacket target port "S") TIMEOUT = Sr1Unbuilt ->
          m !! port = None)
    /\ ((forall port : Z, port ∈ ports args ->
           sr1 env (mkPacket target port "S") TIMEOUT = Sr1Raise) ->
        m = ∅)
    /\ ((forall port : Z, port ∈ ports args ->
           sr1 env (mkPacket target port "S") TIMEOUT = Sr1Unbuilt) ->
        m = ∅ /\ sent w' = sent w).
Proof.
  intros Hfair Hpool.
  destruct (scan_ports_lookup args env sched target w Hfair Hpool) as (m & Hm & Hlook).
  rewrite (scan_ports_run _ _ _ _ _ Hpool) in Hm |- *. cbn zeta in Hm |- *.
  cbn [fst] in Hm. injection Hm as Hm. rewrite Hm.
  eexists m, _. split; [reflexivity|].
  assert (Hsent : sent (foldl (fun acc port => scan_port env target port acc)
                          (∅, log args "Starting port scan..." Info w)
                          (sched Z (ports args))).2
                  = (sent w ++ flat_map (probes_of env target) (sched Z (ports args)))%list).
  { rewrite pool_scan_sent. cbn [snd]. now rewrite (proj1 (log_sent args _ _ w)). }
  assert (Hempty : forall r : sr1_result,
            (forall port : Z, port ∈ ports args ->
               sr1 env (mkPacket target port "S") TIMEOUT = r) ->
            syn_ack r = false -> m = ∅).
  { intros r Hall Hr. apply map_eq. intros port. rewrite lookup_empty, Hlook.
    destruct (decide (port ∈ ports args)) as [Hin|]; [|reflexivity].
    unfold verdict. now rewrite (Hall port Hin), Hr. }
  split; [|split; [|split; [|split]]].
  - rewrite Hsent. apply Permutation_app_head, Permutation_flat_map, Hfair.
  - intros port Hin Hcalled. rewrite Hsent. apply elem_of_app. right.
    apply list_elem_of_In, in_flat_map. exists port. split.
    + apply list_elem_of_In. exact (proj2 (fair_elem_of sched _ _ _ Hfair) Hin).
    + unfold probes_of. rewrite Hcalled. now left.
  - intros port Hfail. rewrite Hlook.
    destruct (decide (port ∈ ports args)); [|reflexivity].
    unfold verdict. now destruct Hfail as [-> | ->].
  - intros Hall. now apply (Hempty Sr1Raise).
  - intros Hall. split; [now apply (Hempty Sr1Unbuilt)|].
    rewrite Hsent.
    assert (Hnone : forall l : list Z, (forall p, p ∈ l -> p ∈ ports args) ->
              flat_map (probes_of env target) l = []).
    { induction l as [|p l IH]; intros Hl; cbn [flat_map]; [reflexivity|].
      rewrite IH by (intros q Hq; apply Hl; now right).
      unfold probes_of. rewrite (Hall p) by (apply Hl; left). reflexivity. }
    rewrite Hnone; [apply app_nil_r|].
    intros p Hp. exact (proj1 (fair_elem_of sched _ _ _ Hfair) Hp).
Qed.

(** C3. Starting from an empty map, [scan_port] records the port exactly
    when the SYN probe is answered by a reply with a TCP layer whose flags
    are SYN and ACK and no other; no reply, an error, a reply without a TCP
    layer, a reply with RST, and a reply with SYN, ACK and a further flag
    all leave the port out. *)
Theorem syn_ack_classification (port : Z) :
  let r := sr1 env (mkPacket target port "S") TIMEOUT in
  let m := (scan_port env target port (∅, w)).1 in
  (is_Some (m !! port)
   <-> exists resp, r = Sr1Reply resp /\ haslayer_TCP resp = true /\ only_syn_ack resp)
  /\ (r = Sr1None -> m !! port = None)
  /\ (r = Sr1Raise -> m !! port = None)
  /\ (forall resp, r = Sr1Reply resp -> haslayer_TCP resp = false -> m !! port = None)
  /\ (forall resp, r = Sr1Reply resp -> carries RST_bit resp -> m !! port = None)
  /\ (forall resp extra,
        r = Sr1Reply resp -> carries SYN_bit resp -> carries ACK_bit resp ->
        0 <= extra -> extra <> SYN_bit -> extra <> ACK_bit -> carries extra resp ->
        m !! port = None).
Proof.
  cbn zeta. rewrite scan_port_map. cbn [fst]. unfold verdict.
  assert (Hnot : forall resp extra, 0 <= extra -> extra <> SYN_bit -> extra <> ACK_bit ->
                   carries extra resp -> (TCP_flags resp =? 0x12) = false).
  { intros resp extra H0 H1 H2 Hc. apply Z.eqb_neq. intros Heq.
    apply only_syn_ack_iff in Heq. unfold carries in Hc.
    rewrite (Heq extra H0) in Hc.
    destruct (Z.eqb_spec extra SYN_bit), (Z.eqb_spec extra ACK_bit);
      (contradiction || discriminate). }
  repeat split.
  - destruct (sr1 env (mkPacket target port "S") TIMEOUT) as [| |resp|] eqn:Hr; cbn.
    1,2,4: rewrite lookup_empty; intros [v Hv]; discriminate.
    destruct (haslayer_TCP resp) eqn:Htcp; cbn.
    + destruct (Z.eqb_spec (TCP_flags resp) 0x12) as [Heq|Hne].
      * intros _. exists resp. split; [reflexivity|]. split; [exact Htcp|].
        now apply only_syn_ack_iff.
      * rewrite lookup_empty. intros [v Hv]. discriminate.
    + rewrite lookup_empty. intros [v Hv]. discriminate.
  - intros (resp & -> & Htcp & Honly). apply only_syn_ack_iff in Honly.
    cbn. rewrite Htcp, Honly. cbn. rewrite lookup_insert_eq. eexists; reflexivity.
  - intros ->. cbn. apply lookup_empty.
  - intros ->. cbn. apply lookup_empty.
  - intros resp -> Htcp. cbn. rewrite Htcp. cbn. apply lookup_empty.
  - intros resp -> Hrst. cbn.
    rewrite (Hnot resp RST_bit), andb_false_r; unfold RST_bit, SYN_bit, ACK_bit;
      (apply lookup_empty || lia || exact Hrst).
  - intros resp extra -> _ _ H0 H1 H2 Hc. cbn.
    rewrite (Hnot resp extra H0 H1 H2 Hc), andb_false_r. apply lookup_empty.
Qed.

End ScanTheorems.

(** ** The concurrency limit *)





(** ** The scan on the scenarios of the design document *)

Lemma pool_accepts_default : pool_accepts Examples.args0.
Proof. unfold pool_accepts. reflexivity. Qed.

(** C2 on scenario B. *)
Lemma open_ports_exact_scenario_B :
  fair fifo
  /\ pool_accepts Examples.args0
  /\ exists m : gmap Z string,
       (scan_ports Examples.args0 Examples.envB fifo "10.0.0.1" world0).1 = Return m
       /\ (forall port : Z,
             is_Some (m !! port)
             <-> port ∈ ports Examples.args0
                 /\ syn_ack (sr1 Examples.envB (mkPacket "10.0.0.1" port "S") TIMEOUT) = true)
       /\ (forall port : Z,
             syn_ack (sr1 Examples.envB (mkPacket "10.0.0.1" port "S") TIMEOUT) = false ->
             m !! port = None).
Proof.
  split; [exact fair_fifo|]. split; [exact pool_accepts_default|].
  exact (open_ports_exact Examples.args0 Examples.envB fifo "10.0.0.1" world0
           fair_fifo pool_accepts_default).
Defined.

(** C5 on scenario B: the ACK probes get no reply and ports 80 and 443 are
    recorded as unknown. *)
Lemma ack_probe_only_labels_scenario_B :
  exists m : gmap Z string,
    (scan_ports Examples.args0 Examples.envB lifo "10.0.0.1" world0).1 = Return m
    /\ m !! 80 = Some "unknown" /\ m !! 443 = Some "unknown".
Proof.
  destruct (ack_probe_only_labels Examples.args0 Examples.envB lifo "10.0.0.1" world0
              fair_lifo pool_accepts_default) as (m & Hm & Hports).
  exists m. split; [exact Hm|]. split.
  - apply (Hports 80); [apply ports_range; cbn; lia | reflexivity | now left].
  - apply (Hports 443); [apply ports_range; cbn; lia | reflexivity | now left].
Defined.

(** C10 on scenario B. *)
Lemma open_ports_labels_and_range_scenario_B :
  fair lifo
  /\ pool_accepts Examples.args0
  /\ exists m : gmap Z string,
       (scan_ports Examples.args0 Examples.envB lifo "10.0.0.1" world0).1 = Return m
       /\ forall (port : Z) (service : string),
            m !! port = Some service ->
            (service = "unknown" \/ service = "detected")
            /\ (if top_ports Examples.args0 then 1 <= port <= 1024 else 0 <= port <= 65535).
Proof.
  split; [exact fair_lifo|]. split; [exact pool_accepts_default|].
  exact (open_ports_labels_and_range Examples.args0 Examples.envB lifo "10.0.0.1" world0
           fair_lifo pool_accepts_default).
Defined.

(** C4 on scenario D: every probe raises, the scan returns the empty map
    and port 80 has been probed. *)
Lemma probe_error_not_fatal_scenario_D :
  exists w' : world,
    scan_ports Examples.args0 Examples.envD fifo "10.0.0.1" world0 = (Return ∅, w')
    /\ (mkPacket "10.0.0.1" 80 "S", TIMEOUT) ∈ sent w'.
Proof.
  destruct (probe_error_not_fatal Examples.args0 Examples.envD fifo "10.0.0.1" world0
              fair_fifo pool_accepts_default)
    as (m & w' & Hrun & _ & Hsyn & _ & Hempty & _).
  exists w'. split.
  - rewrite Hrun. f_equal. f_equal. apply Hempty. intros port _. reflexivity.
  - apply Hsyn; [apply ports_range; cbn; lia | reflexivity].
Defined.

(** C4 as stated fails on scenario D: no error reaches the caller, and all
    1024 ports have been probed. *)
Lemma permission_error_scans_on :
  sr1 Examples.envD (mkPacket "10.0.0.1" 1 "S") TIMEOUT = Sr1Raise
  /\ (scan_ports Examples.args0 Examples.envD fifo "10.0.0.1" world0).1 = Return ∅
  /\ length (sent (scan_ports Examples.args0 Examples.envD fifo "10.0.0.1" world0).2)
     = 1024%nat.
Proof. repeat split; vm_compute; reflexivity. Qed.

(** C3 on four replies: SYN-ACK opens port 25; SYN-ACK with ECE, RST-ACK and
    a reply without a TCP layer leave ports 22, 23 and 24 out. *)
Lemma syn_ack_classification_examples :
  is_Some ((scan_port Examples.envFlags "10.0.0.1" 25 (∅, world0)).1 !! 25)
  /\ (scan_port Examples.envFlags "10.0.0.1" 22 (∅, world0)).1 !! 22 = None
  /\ (scan_port Examples.envFlags "10.0.0.1" 23 (∅, world0)).1 !! 23 = None
  /\ (scan_port Examples.envFlags "10.0.0.1" 24 (∅, world0)).1 !! 24 = None.
Proof.
  split; [|split; [|split]].
  - apply (syn_ack_classification Examples.envFlags "10.0.0.1" world0 25).
    exists (mkReply true 0x12). split; [reflexivity|]. split; [reflexivity|].
    now apply only_syn_ack_iff.
  - destruct (syn_ack_classification Examples.envFlags "10.0.0.1" world0 22)
      as (_ & _ & _ & _ & _ & Hextra).
    apply (Hextra (mkReply true 0x52) 6); unfold SYN_bit, ACK_bit; (reflexivity || lia).
  - destruct (syn_ack_classification Examples.envFlags "10.0.0.1" world0 23)
      as (_ & _ & _ & _ & Hrst & _).
    apply (Hrst (mkReply true 0x14)); reflexivity.
  - destruct (syn_ack_classification Examples.envFlags "10.0.0.1" world0 24)
      as (_ & _ & _ & Hlayer & _).
    apply (Hlayer (mkReply false 0x12)); reflexivity.
Defined.

(** * Further properties of the two engines *)

(** ** What the engines leave in the world *)

Lemma log_world (args : Args) (message : string) (l : level) (w : world) :
  queried (log args message l w) = queried w
  /\ fetched (log args message l w) = fetched w
  /\ sent (log args message l w) = sent w
  /\ (silent args = true -> console (log args message l w) = console w).
Proof.
  unfold log. destruct (silent args); [now repeat split|].
  destruct l; try (repeat split; (reflexivity || discriminate)).
  destruct (verbose args); repeat split; (reflexivity || discriminate).
Qed.

Lemma pool_check_world (env : Env) (domain : string) (l : list string) :
  forall st : enum_state,
    (foldl (fun acc sub => check_subdomain env domain sub acc) st l).2
    = mkWorld (console st.2) (queried st.2 ++ map (candidate domain) l)
              (fetched st.2) (sent st.2).
Proof.
  induction l as [|sub l IH]; intros st; cbn [foldl map].
  - rewrite app_nil_r. now destruct st as [s []].
  - rewrite IH, check_subdomain_world. cbn. now rewrite <- app_assoc.
Qed.

Lemma api_fallback_world (args : Args) (env : Env) (domain : string) (st : enum_state) :
  let w' := (api_fallback args env domain st).2 in
  queried w' = queried st.2
  /\ fetched w' = (fetched st.2 ++ [crt_sh_url domain])%list
  /\ sent w' = sent st.2
  /\ (silent args = true -> console w' = console st.2).
Proof.
  cbn zeta. unfold api_fallback.
  destruct (api_try env domain st.1) as [s [[]|e]]; cbn [snd].
  - now repeat split.
  - destruct (log_world args "API fallback failed" Warning
                (note_fetch (crt_sh_url domain) st.2)) as (Hq & Hf & Hs & Hc).
    rewrite Hq, Hf, Hs. repeat split. intros Hsilent. now rewrite (Hc Hsilent).
Qed.

Lemma scan_port_world (env : Env) (target : string) (port : Z) (st : scan_state) :
  (scan_port env target port st).2
  = mkWorld (console st.2) (queried st.2) (fetched st.2)
            (sent st.2 ++ probes_of env target port).
Proof.
  unfold scan_port, probes_of.
  destruct (sr1 env (mkPacket target port "S") TIMEOUT) as [| |resp|];
    cbn [syn_ack sr1_called andb];
    try (unfold note_send; cbn [snd console queried fetched sent];
         rewrite ?app_nil_r; now destruct st as [m []]).
  destruct (haslayer_TCP resp && (TCP_flags resp =? 18));
    [|unfold note_send; cbn [snd console queried fetched sent];
      now rewrite ?app_nil_r].
  destruct (sr1_called (sr1 env (mkPacket target port "A") 1));
    unfold note_send; cbn [snd console queried fetched sent];
    now rewrite <- ?app_assoc, ?app_nil_r.
Qed.

Lemma pool_scan_world (env : Env) (target : string) (l : list Z) :
  forall st : scan_state,
    (foldl (fun acc port => scan_port env target port acc) st l).2
    = mkWorld (console st.2) (queried st.2) (fetched st.2)
              (sent st.2 ++ flat_map (probes_of env target) l).
Proof.
  induction l as [|x l IH]; intros st; cbn [foldl flat_map].
  - rewrite app_nil_r. now destruct st as [m []].
  - rewrite IH, scan_port_world. cbn. now rewrite <- app_assoc.
Qed.

(** ** Subdomain enumeration *)

Section EnumerateMore.

Variable args : Args.
Variable env : Env.
Variable domain : string.

(** X1. Without a wordlist file and without an answer of the passive source
    the enumeration returns the empty set, and it does so whatever the
    thread limit is, a negative one included: no pool is built. *)
Theorem enumerate_nothing_available (sched : scheduler) (w : world) :
  read_lines env (or_str (wordlist args) DEFAULT_WORDLIST) = None ->
  passive_down env domain = true ->
  (enumerate_subdomains args env sched domain w).1 = Return ∅.
Proof.
  intros Hread Hdown. unfold enumerate_subdomains, wordlist_stage.
  rewrite Hread. cbn [fst]. rewrite api_fallback_set. cbn [fst].
  now rewrite (api_try_down env domain ∅ Hdown).
Qed.

(** X2. With both sources at hand the set returned is the union of the two:
    a name is in it exactly when it is a stripped, non-blank line of the
    wordlist followed by the dot and the domain and confirmed by the
    resolver, or the lower-cased value of a record that ends with the dot
    and the domain. *)
Theorem enumerate_merges_sources (sched : scheduler) (w : world)
    (lines : list string) (data : list (option string)) :
  fair sched ->
  pool_accepts args ->
  readable_wordlist args env lines ->
  requests_get env (crt_sh_url domain) = HttpResponse 200 (Some data) ->
  None ∉ data ->
  exists s : gset string,
    (enumerate_subdomains args env sched domain w).1 = Return s
    /\ forall x : string,
         x ∈ s <-> (exists line, line ∈ lines
                                 /\ PyStr.strip line <> ""
                                 /\ x = PyStr.strip line +:+ "." +:+ domain
                                 /\ confirms env x = true)
                   \/ (exists name_value, Some name_value ∈ data
                                  /\ x = PyStr.lower name_value
                                  /\ PyStr.endswith x ("." +:+ domain) = true).
Proof.
  intros Hfair Hpool Hfile Hget Hnone.
  unfold enumerate_subdomains.
  rewrite (wordlist_stage_run args env domain sched lines _ Hpool Hfile).
  eexists. split; [reflexivity|].
  intros x. cbn [fst]. rewrite api_fallback_set. unfold api_try. rewrite Hget.
  cbn. rewrite (add_entries_elem domain data Hnone).
  rewrite (wordlist_names env domain sched lines _ x Hfair). cbn [fst].
  split.
  - intros [[H|H]|H]; [now apply not_elem_of_empty in H | now left | now right].
  - intros [H|H]; [left; now right | now right].
Qed.

Lemma add_entries_shape (data : list (option string)) : forall (s : gset string) (x : string),
  x ∈ (add_entries domain data s).1 ->
  x ∈ s \/ (PyStr.lower x = x /\ PyStr.endswith x ("." +:+ domain) = true).
Proof.
  induction data as [|[nv|] data IH]; intros s x; cbn [add_entries fst];
    [now left| |now left].
  destruct (PyStr.endswith (PyStr.lower nv) ("." +:+ domain)) eqn:He; [|apply IH].
  intros H. apply IH in H as [H|H]; [|now right].
  apply elem_of_union in H as [H|H]; [|now left].
  apply elem_of_singleton in H. subst x. right.
  split; [apply PyStrFacts.lower_idemp | exact He].
Qed.

Lemma api_fallback_shape (st : enum_state) (x : string) :
  x ∈ (api_fallback args env domain st).1 ->
  x ∈ st.1
  \/ (PyStr.lower x = x /\ exists p, x = p +:+ "." +:+ domain).
Proof.
  rewrite api_fallback_set. unfold api_try.
  destruct (requests_get env (crt_sh_url domain)) as [|code [data|]];
    [now left| |destruct (code =? 200); now left].
  destruct (code =? 200); [|now left].
  intros H. apply add_entries_shape in H as [H|[Hl He]]; [now left|].
  right. split; [exact Hl|]. now apply PyStrFacts.endswith_spec.
Qed.

(** X3. Whatever the passive source answers, a parse error in the middle of
    the records included, every name it adds is in lower case and is a
    prefix followed by the dot and the domain. *)
Theorem passive_names_shape (st : enum_state) (x : string) :
  x ∈ (api_fallback args env domain st).1 ->
  x ∉ st.1 ->
  PyStr.lower x = x /\ exists p, x = p +:+ "." +:+ domain.
Proof.
  intros Hin Hnew. now destruct (api_fallback_shape st x Hin) as [H|H].
Qed.

Lemma lower_length (s : string) : String.length (PyStr.lower s) = String.length s.
Proof. induction s as [|c s IH]; cbn; [reflexivity | now rewrite IH]. Qed.

Lemma lower_app (a b : string) :
  PyStr.lower (a +:+ b) = PyStr.lower a +:+ PyStr.lower b.
Proof.
  induction a as [|c a IH]; [reflexivity|].
  change (String (PyStr.lower_char c) (PyStr.lower (a +:+ b))
          = String (PyStr.lower_char c) (PyStr.lower a +:+ PyStr.lower b)).
  now rewrite IH.
Qed.

Lemma append_inv_same_length (a a' b b' : string) :
  String.length a = String.length a' -> a +:+ b = a' +:+ b' -> b = b'.
Proof.
  revert a'. induction a as [|c a IH]; intros [|c' a'] Hlen Heq;
    cbn in *; try discriminate; [exact Heq|].
  injection Heq as _ Heq. apply (IH a'); [lia | exact Heq].
Qed.

(** X4. The records are lower-cased but the domain is compared as given: for
    a domain written with a capital letter the passive source adds nothing,
    whatever it answers. *)
Theorem passive_needs_lower_domain (st : enum_state) :
  PyStr.lower domain <> domain ->
  (api_fallback args env domain st).1 = st.1.
Proof.
  intros Hcaps. apply set_eq. intros x. split; [|apply api_fallback_mono].
  intros Hin. destruct (api_fallback_shape st x Hin) as [H|[Hl (p & Hx)]]; [exact H|].
  exfalso. apply Hcaps. rewrite Hx in Hl. rewrite lower_app in Hl.
  apply append_inv_same_length in Hl; [|apply lower_length].
  cbn in Hl. now injection Hl.
Qed.

(** X5. With a wordlist file that can be read, the resolver is asked once
    for every candidate, in the order the pool chooses, crt.sh is fetched
    once after that, and no packet is sent. *)
Theorem enumerate_calls (sched : scheduler) (w : world) (lines : list string) :
  fair sched ->
  pool_accepts args ->
  readable_wordlist args env lines ->
  let w' := (enumerate_subdomains args env sched domain w).2 in
  queried w' ≡ₚ (queried w ++ map (candidate domain) (load_wordlist lines))%list
  /\ fetched w' = (fetched w ++ [crt_sh_url domain])%list
  /\ sent w' = sent w.
Proof.
  intros Hfair Hpool Hfile. cbn zeta.
  unfold enumerate_subdomains.
  rewrite (wordlist_stage_run args env domain sched lines _ Hpool Hfile). cbn [snd].
  destruct (api_fallback_world args env domain
              (foldl (fun acc x => check_subdomain env domain x acc)
                 (∅, log args "Starting subdomain enumeration..." Info w)
                 (sched string (load_wordlist lines)))) as (Hq & Hf & Hs & _).
  rewrite Hq, Hf, Hs, pool_check_world. cbn [queried fetched sent snd].
  destruct (log_world args "Starting subdomain enumeration..." Info w)
    as (Hq' & Hf' & Hs' & _).
  rewrite Hq', Hf', Hs'. repeat split.
  apply Permutation_app_head, Permutation_map, Hfair.
Qed.

End EnumerateMore.

(** ** The wordlist *)

Lemma lstrip_fixed (s : string) :
  match s with
  | EmptyString => True
  | String c _ => PyStr.isspace c = false
  end -> PyStr.lstrip s = s.
Proof. destruct s as [|c s]; cbn; [reflexivity | now intros ->]. Qed.

Lemma lstrip_head (s : string) :
  match PyStr.lstrip s with
  | EmptyString => True
  | String c _ => PyStr.isspace c = false
  end.
Proof.
  induction s as [|c s IH]; cbn; [exact I|].
  destruct (PyStr.isspace c) eqn:Hc; [exact IH | exact Hc].
Qed.

Lemma rstrip_head (s : string) :
  match s with
  | EmptyString => True
  | String c _ => PyStr.isspace c = false
  end ->
  match PyStr.rstrip s with
  | EmptyString => True
  | String c _ => PyStr.isspace c = false
  end.
Proof.
  destruct s as [|c s]; cbn; [trivial|]. intros Hc.
  destruct (PyStr.rstrip s); [now rewrite Hc | exact Hc].
Qed.

Lemma rstrip_idemp (s : string) : PyStr.rstrip (PyStr.rstrip s) = PyStr.rstrip s.
Proof.
  induction s as [|c s IH]; cbn; [reflexivity|].
  destruct (PyStr.rstrip s) as [|d r] eqn:Hr.
  - destruct (PyStr.isspace c) eqn:Hc; cbn; [reflexivity | now rewrite Hc].
  - cbn [PyStr.rstrip] in IH |- *. now rewrite IH.
Qed.

Lemma strip_idemp (s : string) : PyStr.strip (PyStr.strip s) = PyStr.strip s.
Proof.
  unfold PyStr.strip.
  rewrite (lstrip_fixed (PyStr.rstrip (PyStr.lstrip s))).
  - apply rstrip_idemp.
  - apply rstrip_head, lstrip_head.
Qed.

(** X6. The labels read from the wordlist file are never empty and carry no
    blank at either end: stripping one again changes nothing. *)
Theorem load_wordlist_clean (lines : list string) (label : string) :
  label ∈ load_wordlist lines ->
  label <> "" /\ PyStr.strip label = label.
Proof.
  unfold load_wordlist. intros Hin.
  apply list_elem_of_fmap in Hin as (line & -> & Hline).
  apply list_elem_of_filter in Hline as [Htruthy _].
  split; [|apply strip_idemp].
  intros Hempty. rewrite Hempty in Htruthy. discriminate.
Qed.

(** ** Port scanning *)

Section ScanMore.

Variable env : Env.
Variable target : string.

(** X7. The map of open ports does not depend on the order in which the pool
    completes the probes, nor on what was observed before: two scans against
    the same replies give the same outcome. *)
Theorem scan_deterministic (args : Args) (sched1 sched2 : scheduler) (w1 w2 : world) :
  fair sched1 ->
  fair sched2 ->
  (scan_ports args env sched1 target w1).1 = (scan_ports args env sched2 target w2).1.
Proof.
  intros Hf1 Hf2. unfold scan_ports, ThreadPoolExecutor.
  destruct (or_int (threads args) DEFAULT_THREADS <=? 0); [reflexivity|].
  cbn [fst]. f_equal. apply map_eq. intros port.
  rewrite !pool_scan_lookup. cbn [fst].
  destruct (decide (port ∈ sched1 Z (ports args))) as [H1|H1];
    destruct (decide (port ∈ sched2 Z (ports args))) as [H2|H2];
    try reflexivity; exfalso.
  - apply H2, (fair_elem_of sched2 _ _ _ Hf2).
    exact (proj1 (fair_elem_of sched1 _ _ _ Hf1) H1).
  - apply H1, (fair_elem_of sched1 _ _ _ Hf1).
    exact (proj1 (fair_elem_of sched2 _ _ _ Hf2) H2).
Qed.

(** X8. A scan of the top ports finds what the full scan finds on ports 1 to
    1024 and nothing else: its map is the full map cut down to that range. *)
Theorem top_ports_restricts_full (top full : Args) (sched1 sched2 : scheduler)
    (w1 w2 : world) :
  top_ports top = true ->
  top_ports full = false ->
  pool_accepts top ->
  pool_accepts full ->
  fair sched1 ->
  fair sched2 ->
  exists m_top m_full : gmap Z string,
    (scan_ports top env sched1 target w1).1 = Return m_top
    /\ (scan_ports full env sched2 target w2).1 = Return m_full
    /\ (forall port : Z,
          m_top !! port = if decide (1 <= port <= 1024) then m_full !! port else None)
    /\ m_top ⊆ m_full.
Proof.
  intros Htop Hfull Hp1 Hp2 Hf1 Hf2.
  destruct (scan_ports_lookup top env sched1 target w1 Hf1 Hp1) as (m1 & Hm1 & Hl1).
  destruct (scan_ports_lookup full env sched2 target w2 Hf2 Hp2) as (m2 & Hm2 & Hl2).
  assert (Hcut : forall port : Z,
            m1 !! port = if decide (1 <= port <= 1024) then m2 !! port else None).
  { intros port. rewrite Hl1, Hl2.
    pose proof (ports_range top port) as Hr1. rewrite Htop in Hr1.
    pose proof (ports_range full port) as Hr2. rewrite Hfull in Hr2.
    destruct (decide (port ∈ ports top)) as [H1|H1];
      destruct (decide (1 <= port <= 1024)) as [Hin|Hout];
      destruct (decide (port ∈ ports full)) as [H2|H2];
      try reflexivity; exfalso; try tauto.
    apply H2, Hr2. lia. }
  exists m1, m2. split; [exact Hm1|]. split; [exact Hm2|]. split; [exact Hcut|].
  apply map_subseteq_spec. intros port service. rewrite Hcut.
  destruct (decide (1 <= port <= 1024)); [trivial | discriminate].
Qed.

Lemma probes_of_elem (port : Z) (pkt : packet) (t : Z) :
  (pkt, t) ∈ probes_of env target port
  <-> (pkt = mkPacket target port "S" /\ t = TIMEOUT
       /\ sr1_called (sr1 env (mkPacket target port "S") TIMEOUT) = true)
      \/ (pkt = mkPacket target port "A" /\ t = 1
          /\ syn_ack (sr1 env (mkPacket target port "S") TIMEOUT) = true
          /\ sr1_called (sr1 env (mkPacket target port "A") 1) = true).
Proof.
  unfold probes_of. rewrite elem_of_app.
  destruct (sr1_called (sr1 env (mkPacket target port "S") TIMEOUT));
    destruct (syn_ack (sr1 env (mkPacket target port "S") TIMEOUT));
    destruct (sr1_called (sr1 env (mkPacket target port "A") 1));
    cbn [andb]; rewrite ?list_elem_of_singleton, ?elem_of_nil; split;
    intros H;
    repeat match goal with
           | H : _ \/ _ |- _ => destruct H as [H|H]
           | H : _ /\ _ |- _ => destruct H as [? H]
           | H : False |- _ => destruct H
           | H : (_, _) = (_, _) |- _ => injection H as -> ->
           | H : false = true |- _ => discriminate H
           end; subst; tauto.
Qed.

(** X9. The packets a scan sends are, for every port of the range whose SYN
    segment can be built, that segment to the target with the 5 second
    timeout and, exactly for the ports that end up in the map and whose ACK
    segment can be built, that segment with the 1 second timeout; nothing
    else is sent. *)
Theorem scan_packets (args : Args) (sched : scheduler) (w : world) :
  fair sched ->
  pool_accepts args ->
  exists (m : gmap Z string) (w' : world),
    scan_ports args env sched target w = (Return m, w')
    /\ forall (pkt : packet) (t : Z),
         (pkt, t) ∈ sent w'
         <-> (pkt, t) ∈ sent w
             \/ exists port : Z,
                  port ∈ ports args
                  /\ ((pkt = mkPacket target port "S" /\ t = TIMEOUT
                       /\ sr1_called (sr1 env (mkPacket target port "S") TIMEOUT) = true)
                      \/ (pkt = mkPacket target port "A" /\ t = 1
                          /\ is_Some (m !! port)
                          /\ sr1_called (sr1 env (mkPacket target port "A") 1) = true)).
Proof.
  intros Hfair Hpool.
  destruct (scan_ports_lookup args env sched target w Hfair Hpool) as (m & Hm & Hlook).
  rewrite (scan_ports_run _ _ _ _ _ Hpool) in Hm |- *. cbn zeta in Hm |- *.
  cbn [fst] in Hm. injection Hm as Hm. rewrite Hm.
  eexists m, _. split; [reflexivity|]. intros pkt t.
  rewrite pool_scan_world. cbn [sent snd].
  destruct (log_world args "Starting port scan..." Info w) as (_ & _ & Hs & _).
  rewrite Hs, elem_of_app.
  assert (Hopen : forall port, port ∈ ports args ->
            (is_Some (m !! port)
             <-> syn_ack (sr1 env (mkPacket target port "S") TIMEOUT) = true)).
  { intros port Hin. rewrite Hlook, decide_True by exact Hin. apply verdict_is_Some. }
  split; (intros [H|H]; [now left | right]).
  - apply list_elem_of_In, in_flat_map in H as (port & Hin & Hp).
    apply list_elem_of_In in Hin, Hp.
    pose proof (proj1 (fair_elem_of sched _ _ _ Hfair) Hin) as Hin'.
    exists port. split; [exact Hin'|].
    apply probes_of_elem in Hp as [Hp|(H1 & H2 & H3 & H4)]; [now left|].
    right. repeat split; try assumption. now apply Hopen.
  - destruct H as (port & Hin & Hp).
    apply list_elem_of_In, in_flat_map. exists port. split.
    + apply list_elem_of_In. exact (proj2 (fair_elem_of sched _ _ _ Hfair) Hin).
    + apply list_elem_of_In, probes_of_elem.
      destruct Hp as [Hp|(H1 & H2 & H3 & H4)]; [now left|].
      right. repeat split; try assumption. now apply Hopen.
Qed.

Lemma pool_scan_count (l : list Z) : forall st : scan_state,
  addressable env target ->
  NoDup l ->
  (forall p, p ∈ l -> st.1 !! p = None) ->
  (size (foldl (fun acc port => scan_port env target port acc) st l).1
   + length (sent st.2) + length l
   = size st.1
     + length (sent (foldl (fun acc port => scan_port env target port acc) st l).2))%nat.
Proof.
  induction l as [|x l IH]; intros st Haddr Hnd Hfresh; cbn [foldl length]; [lia|].
  apply NoDup_cons in Hnd as [Hx Hnd].
  assert (Hx' : st.1 !! x = None) by (apply Hfresh; left).
  specialize (IH (scan_port env target x st) Haddr Hnd).
  rewrite scan_port_map, scan_port_world in IH. cbn [snd sent] in IH.
  rewrite length_app in IH. unfold probes_of, verdict in *.
  rewrite !Haddr in IH. cbn [length app] in IH. rewrite andb_true_r in IH.
  destruct (syn_ack (sr1 env (mkPacket target x "S") TIMEOUT)).
  - rewrite map_size_insert_None in IH by exact Hx'. cbn [length] in IH.
    enough (Hgo : (forall p, p ∈ l -> <[x := if banner_seen (sr1 env (mkPacket target x "A") 1)
                                            then "detected" else "unknown"]> st.1 !! p = None)).
    { specialize (IH Hgo). lia. }
    intros p Hp. rewrite lookup_insert_ne; [apply Hfresh; now right|].
    intros ->. contradiction.
  - cbn [length] in IH.
    enough (Hgo : forall p, p ∈ l -> st.1 !! p = None).
    { specialize (IH Hgo). lia. }
    intros p Hp. apply Hfresh. now right.
Qed.

(** X10. When the packets for the target can be built, a scan sends as many
    packets as the range has ports plus one for every port it reports open:
    1024 or 65536 SYN probes, and one ACK probe per entry of the map. When
    no SYN segment can be built, it sends none. *)
Theorem scan_packet_count (args : Args) (sched : scheduler) (w : world) :
  fair sched ->
  pool_accepts args ->
  exists (m : gmap Z string) (w' : world),
    scan_ports args env sched target w = (Return m, w')
    /\ (addressable env target ->
        Z.of_nat (length (sent w'))
        = Z.of_nat (length (sent w))
          + (if top_ports args then 1024 else 65536)
          + Z.of_nat (size m))
    /\ ((forall port : Z, port ∈ ports args ->
           sr1 env (mkPacket target port "S") TIMEOUT = Sr1Unbuilt) ->
        length (sent w') = length (sent w)).
Proof.
  intros Hfair Hpool.
  rewrite (scan_ports_run _ _ _ _ _ Hpool). cbn zeta.
  eexists _, _. split; [reflexivity|].
  destruct (log_world args "Starting port scan..." Info w) as (_ & _ & Hs & _).
  split.
  - intros Haddr.
    pose proof (pool_scan_count (sched Z (ports args))
                  (∅, log args "Starting port scan..." Info w) Haddr) as Hcount.
    cbn [fst snd] in Hcount.
    rewrite Hs, map_size_empty in Hcount.
    assert (Hlen : Z.of_nat (length (sched Z (ports args)))
                   = if top_ports args then 1024 else 65536).
    { rewrite (Permutation_length (Hfair Z (ports args))). unfold ports.
      destruct (top_ports args); rewrite length_seqZ; lia. }
    assert (Hnd : NoDup (sched Z (ports args))).
    { rewrite (Hfair Z (ports args)). unfold ports.
      destruct (top_ports args); apply NoDup_seqZ. }
    specialize (Hcount Hnd (fun p _ => lookup_empty p)). lia.
  - intros Hall. rewrite pool_scan_world. cbn [sent snd]. rewrite Hs.
    assert (Hnone : forall l : list Z, (forall p, p ∈ l -> p ∈ ports args) ->
              flat_map (probes_of env target) l = []).
    { induction l as [|p l IH]; intros Hl; cbn [flat_map]; [reflexivity|].
      rewrite IH by (intros q Hq; apply Hl; now right).
      unfold probes_of. rewrite (Hall p) by (apply Hl; left). reflexivity. }
    rewrite Hnone; [now rewrite app_nil_r|].
    intros p Hp. exact (proj1 (fair_elem_of sched _ _ _ Hfair) Hp).
Qed.

End ScanMore.

(** X11. With the silent option neither engine emits a line through [log],
    whatever happens: no start message, no warning about the passive
    source. *)
Theorem silent_prints_nothing (args : Args) (env : Env) (sched : scheduler)
    (name : string) (w : world) :
  silent args = true ->
  console (enumerate_subdomains args env sched name w).2 = console w
  /\ console (scan_ports args env sched name w).2 = console w.
Proof.
  intros Hsilent.
  assert (Hlog : forall message l w0, console (log args message l w0) = console w0).
  { intros message l w0. now apply log_world. }
  split.
  - unfold enumerate_subdomains, wordlist_stage.
    destruct (read_lines env (or_str (wordlist args) DEFAULT_WORDLIST)) as [lines|].
    + destruct (unreadable env (or_str (wordlist args) DEFAULT_WORDLIST));
        cbn [snd]; [apply Hlog|].
      unfold ThreadPoolExecutor.
      destruct (or_int (threads args) DEFAULT_THREADS <=? 0); cbn [snd]; [apply Hlog|].
      destruct (api_fallback_world args env name
                  (foldl (fun acc x => check_subdomain env name x acc)
                     (∅, log args "Starting subdomain enumeration..." Info w)
                     (sched string (load_wordlist lines)))) as (_ & _ & _ & Hc).
      rewrite (Hc Hsilent), pool_check_world. cbn [console snd]. apply Hlog.
    + cbn [snd].
      destruct (api_fallback_world args env name
                  (∅, log args "Starting subdomain enumeration..." Info w))
        as (_ & _ & _ & Hc).
      rewrite (Hc Hsilent). cbn [snd]. apply Hlog.
  - unfold scan_ports, ThreadPoolExecutor.
    destruct (or_int (threads args) DEFAULT_THREADS <=? 0); cbn [snd]; [apply Hlog|].
    rewrite pool_scan_world. cbn [console snd]. apply Hlog.
Qed.

(** * The other modules *)

(** ** Strings *)

Lemma startswith_spec (s p : string) :
  PyText.startswith s p = true <-> exists r, s = p +:+ r.
Proof.
  revert s. induction p as [|a p IH]; intros s; cbn.
  - split; [intros _; now exists s | intros _; now destruct s].
  - destruct s as [|b s]; cbn;
      [split; [discriminate | intros [r Hr]; discriminate]|].
    rewrite andb_true_iff, IH. split.
    + intros [Hab [r ->]]. apply Ascii.eqb_eq in Hab as ->. now exists r.
    + intros [r Hr]. injection Hr as -> ->. split; [apply Ascii.eqb_refl | now exists r].
Qed.

Lemma contains_spec (needle hay : string) :
  PyText.contains needle hay = true <-> occurs_in needle hay.
Proof.
  unfold occurs_in. induction hay as [|c hay IH].
  - cbn [PyText.contains]. rewrite orb_false_r, startswith_spec. split.
    + intros [r Hr]. exists "", r. exact Hr.
    + intros (a & b & Hab). destruct a; [now exists b | discriminate].
  - cbn [PyText.contains]. rewrite orb_true_iff, startswith_spec, IH. split.
    + intros [[r Hr]|(a & b & Hab)].
      * exists "", r. exact Hr.
      * exists (String c a), b. cbn. now rewrite Hab.
    + intros (a & b & Hab). destruct a as [|c' a].
      * left. now exists b.
      * right. injection Hab as _ Hab. now exists a, b.
Qed.

(** ** Vulnerability mapping *)

(** The list of findings, piece by piece. *)
Lemma findings_pieces (r : response) :
  findings r
  = ((if PyText.contains "Index of /" (text r)
      then ["Directory listing enabled"] else [])
     ++ (if (status r =? 200) && PyText.contains "default" (PyStr.lower (text r))
         then ["Default page detected"] else [])
     ++ match header r "X-Frame-Options", header r "X-Content-Type-Options" with
        | None, None => [missing_line ["X-Frame-Options"; "X-Content-Type-Options"]]
        | None, Some _ => [missing_line ["X-Frame-Options"]]
        | Some _, None => [missing_line ["X-Content-Type-Options"]]
        | Some _, Some _ => []
        end
     ++ match header r "Server" with
        | Some v => if PyText.contains "old" (PyStr.lower v)
                    then ["Outdated server version"] else []
        | None => []
        end)%list.
Proof.
  unfold findings. rewrite !filter_cons, filter_nil.
  destruct (header r "X-Frame-Options") as [v1|];
    destruct (header r "X-Content-Type-Options") as [v2|];
    destruct (header r "Server") as [v3|];
    repeat match goal with
           | |- context [decide ?P] => destruct (decide P); try discriminate; try congruence
           end;
    destruct (PyText.contains "Index of /" (text r));
    destruct ((status r =? 200) && PyText.contains "default" (PyStr.lower (text r)));
    try destruct (PyText.contains "old" (PyStr.lower v3));
    reflexivity.
Qed.

Ltac list_member :=
  match goal with
  | |- _ ∈ _ => apply (bool_decide_unpack _); vm_compute; reflexivity
  | H : _ ∈ _ |- _ =>
      exfalso; revert H; apply (proj1 (bool_decide_eq_false _)); vm_compute; reflexivity
  end.

(** X12. What each fixed finding of [map_vulns] means: a directory listing is
    reported exactly when the page contains "Index of /", a default page
    exactly when the status is 200 and the page contains "default" in any
    letter case, an outdated server exactly when the Server header contains
    "old" in any letter case. *)
Theorem findings_exact (r : response) :
  ("Directory listing enabled" ∈ findings r <-> occurs_in "Index of /" (text r))
  /\ ("Default page detected" ∈ findings r
      <-> status r = 200 /\ occurs_in "default" (PyStr.lower (text r)))
  /\ ("Outdated server version" ∈ findings r
      <-> exists v, header r "Server" = Some v /\ occurs_in "old" (PyStr.lower v)).
Proof.
  rewrite findings_pieces, <- !contains_spec.
  assert (Hdefault : status r = 200 /\ PyText.contains "default" (PyStr.lower (text r)) = true
                     <-> (status r =? 200) && PyText.contains "default" (PyStr.lower (text r)) = true).
  { now rewrite andb_true_iff, Z.eqb_eq. }
  rewrite Hdefault. clear Hdefault.
  assert (Hold : (exists v, header r "Server" = Some v /\ occurs_in "old" (PyStr.lower v))
                 <-> match header r "Server" with
                     | Some v => PyText.contains "old" (PyStr.lower v) = true
                     | None => False
                     end).
  { destruct (header r "Server") as [v|]; split.
    - intros (v' & [= <-] & H). now apply contains_spec.
    - intros H. exists v. split; [reflexivity | now apply contains_spec].
    - intros (v' & H & _). discriminate.
    - intros []. }
  rewrite Hold. clear Hold.
  destruct (PyText.contains "Index of /" (text r));
    destruct ((status r =? 200) && PyText.contains "default" (PyStr.lower (text r)));
    destruct (header r "X-Frame-Options");
    destruct (header r "X-Content-Type-Options");
    (destruct (header r "Server") as [v|];
     [destruct (PyText.contains "old" (PyStr.lower v))|]);
    (split; [|split]); split; intros H;
    first [ reflexivity | discriminate H | contradiction | list_member ].
Qed.

(** X13. The security headers [map_vulns] reports: the line names exactly the
    headers, of X-Frame-Options and X-Content-Type-Options, that the
    response lacks, and no such line is produced when both are present. *)
Theorem missing_headers_named (r : response) :
  let xfo := header r "X-Frame-Options" in
  let xcto := header r "X-Content-Type-Options" in
  (missing_line ["X-Frame-Options"; "X-Content-Type-Options"] ∈ findings r
   <-> xfo = None /\ xcto = None)
  /\ (missing_line ["X-Frame-Options"] ∈ findings r <-> xfo = None /\ is_Some xcto)
  /\ (missing_line ["X-Content-Type-Options"] ∈ findings r <-> is_Some xfo /\ xcto = None)
  /\ (is_Some xfo -> is_Some xcto ->
      forall line, line ∈ findings r -> PyText.startswith line "Missing" = false).
Proof.
  cbn zeta. rewrite findings_pieces.
  destruct (PyText.contains "Index of /" (text r));
    destruct ((status r =? 200) && PyText.contains "default" (PyStr.lower (text r)));
    destruct (header r "X-Frame-Options") as [v1|];
    destruct (header r "X-Content-Type-Options") as [v2|];
    (destruct (header r "Server") as [v|];
     [destruct (PyText.contains "old" (PyStr.lower v))|]);
    (split; [|split; [|split]]);
    try (split; intros H;
         first [ list_member
               | split; first [reflexivity | eexists; reflexivity]
               | destruct H as [H1 H2]; first [discriminate | destruct H1; discriminate
                                               | destruct H2; discriminate] ]).
  all: intros H1 H2 line Hline; try (destruct H1; discriminate); try (destruct H2; discriminate).
  all: repeat (apply elem_of_cons in Hline as [->|Hline]; [reflexivity|]).
  all: now apply elem_of_nil in Hline.
Qed.

Lemma report_cases (r : response) :
  report_of (findings r) <> ""
  /\ report_of (findings r) <> "Error in vuln mapping"
  /\ (report_of (findings r) = "No basic vulnerabilities detected" <-> findings r = []).
Proof.
  rewrite findings_pieces.
  destruct (PyText.contains "Index of /" (text r));
    destruct ((status r =? 200) && PyText.contains "default" (PyStr.lower (text r)));
    destruct (header r "X-Frame-Options");
    destruct (header r "X-Content-Type-Options");
    (destruct (header r "Server") as [v|];
     [destruct (PyText.contains "old" (PyStr.lower v))|]);
    (split; [|split; [|split]]); vm_compute; first [discriminate | reflexivity].
Qed.

Section Reports.

Variable opts : Options.
Variable host : Host.

Lemma save_results_cases (data : payload) (filename : string) (d : desk) :
  let r := save_results opts host data filename d in
  match r.1 with
  | Ok _ => save opts = false
            \/ exists u, open_w host (results_path filename) = Ok u
  | Fails message => save opts = true
                     /\ open_w host (results_path filename) = Fails message
  end.
Proof.
  cbn zeta. unfold save_results, results_path.
  destruct (save opts); cbn; [|now left].
  destruct (open_w host (PyText.path_join RESULTS_DIR filename)) as [u|message]; cbn.
  - right. now exists u.
  - now split.
Qed.

Lemma log_exception_outcome (message : string) (d : desk) :
  (log_exception opts host message d).1
  = if handler_raises opts host message then Raise Exception else Return tt.
Proof.
  unfold log_exception, handler_raises.
  destruct (silent (engine opts)); cbn; [reflexivity|].
  now destruct (rich_rejects host message).
Qed.

Lemma vulns_try_fails (url : string) (d : desk) (message : string) :
  (vulns_try opts host url d).1 = Fails message
  <-> try_fails opts host "vulns_" ".txt" url message.
Proof.
  unfold vulns_try, try_fails.
  destruct (http_get host url) as [r|m1]; cbn [fst].
  2: { split; [intros [= ->]; now left|].
       intros [H|[(r & H & _)|(r & loc & H & _)]]; congruence. }
  destruct (netloc host url) as [loc|m2]; cbn [fst].
  2: { split; [intros [= ->]; right; left; now exists r|].
       intros [H|[(r' & _ & H)|(r' & loc & _ & H & _)]]; congruence. }
  match goal with
  | |- context [save_results opts host ?a ?b ?c] =>
      pose proof (save_results_cases a b c) as Hsave
  end. cbn zeta in Hsave.
  destruct (save_results opts host _ _ _) as [[u|m3] d']; cbn [fst] in *.
  - split; [discriminate|].
    intros [H|[(r' & _ & H)|(r' & loc' & _ & [= <-] & Hs & Hopen)]];
      try discriminate.
    destruct Hsave as [Hsave|[u' Hsave]]; congruence.
  - destruct Hsave as [Hs Hopen]. split.
    + intros [= ->]. right. right. now exists r, loc.
    + intros [H|[(r' & _ & H)|(r' & loc' & _ & [= <-] & _ & Hopen')]];
        congruence.
Qed.

Lemma vulns_try_ok (url : string) (d : desk) (report : string) :
  (vulns_try opts host url d).1 = Ok report ->
  exists r, http_get host url = Ok r /\ report = report_of (findings r).
Proof.
  unfold vulns_try.
  destruct (http_get host url) as [r|m1]; cbn [fst]; [|discriminate].
  destruct (netloc host url) as [loc|m2]; cbn [fst]; [|discriminate].
  destruct (save_results opts host _ _ _) as [[u|m3] d']; cbn [fst]; [|discriminate].
  intros [= <-]. now exists r.
Qed.

(** X14. The report of [map_vulns] is never empty. It is the text "Error in
    vuln mapping" exactly when the [try] failed (the request raised, the URL
    could not be parsed or the report could not be saved) and the failure
    could be logged, so that a saving error loses the findings although the
    page was analysed; and [map_vulns] raises exactly when the [try] failed
    and the text of the failure, logged in the handler, is rejected by the
    markup of rich while the run is not silent. *)
Theorem map_vulns_error_text (url : string) (d : desk) :
  let result := (map_vulns opts host url d).1 in
  result <> Return ""
  /\ (result = Return "Error in vuln mapping"
      <-> exists message,
            try_fails opts host "vulns_" ".txt" url message
            /\ handler_raises opts host ("Vuln mapping failed: " +:+ message) = false)
  /\ (result = Raise Exception
      <-> exists message,
            try_fails opts host "vulns_" ".txt" url message
            /\ handler_raises opts host ("Vuln mapping failed: " +:+ message) = true).
Proof.
  cbn zeta. unfold map_vulns.
  pose proof (vulns_try_fails url
                (log_desk opts "Mapping vulnerabilities..." Info d)) as Hfails.
  pose proof (vulns_try_ok url
                (log_desk opts "Mapping vulnerabilities..." Info d)) as Hok.
  destruct (vulns_try opts host url _) as [[report|m] d']; cbn [fst] in *.
  - destruct (Hok report eq_refl) as (r & Hget & ->).
    destruct (report_cases r) as (Hne & Herr & _).
    split; [congruence|]. split; split.
    + intros [= H]. contradiction.
    + intros (message & Hf & _). apply Hfails in Hf. discriminate.
    + discriminate.
    + intros (message & Hf & _). apply Hfails in Hf. discriminate.
  - pose proof (log_exception_outcome ("Vuln mapping failed: " +:+ m) d') as Hlog.
    destruct (log_exception opts host _ d') as [[[]|e] d'']; cbn [fst] in *;
      destruct (handler_raises opts host ("Vuln mapping failed: " +:+ m)) eqn:Hh;
      try discriminate.
    + split; [discriminate|]. split; split.
      * intros _. exists m. split; [now apply Hfails | exact Hh].
      * reflexivity.
      * discriminate.
      * intros (message & Hf & Hr). apply Hfails in Hf. injection Hf as <-. congruence.
    + injection Hlog as ->. split; [discriminate|]. split; split.
      * discriminate.
      * intros (message & Hf & Hr). apply Hfails in Hf. injection Hf as <-. congruence.
      * intros _. exists m. split; [now apply Hfails | exact Hh].
      * reflexivity.
Qed.

(** X15. When [map_vulns] does not fail, its report is "No basic
    vulnerabilities detected" exactly when the page shows no directory
    listing and no default page, carries both security headers and names no
    old server. *)
Theorem map_vulns_clean_report (url : string) (d : desk) (r : response) (loc : string) :
  http_get host url = Ok r ->
  netloc host url = Ok loc ->
  (save opts = true ->
   exists u, open_w host (results_path ("vulns_" +:+ loc +:+ ".txt")) = Ok u) ->
  (map_vulns opts host url d).1 = Return (report_of (findings r))
  /\ ((map_vulns opts host url d).1 = Return "No basic vulnerabilities detected"
      <-> ~ occurs_in "Index of /" (text r)
          /\ ~ (status r = 200 /\ occurs_in "default" (PyStr.lower (text r)))
          /\ is_Some (header r "X-Frame-Options")
          /\ is_Some (header r "X-Content-Type-Options")
          /\ (forall v, header r "Server" = Some v -> ~ occurs_in "old" (PyStr.lower v))).
Proof.
  intros Hget Hloc Hsave.
  assert (Hrun : (map_vulns opts host url d).1 = Return (report_of (findings r))).
  { unfold map_vulns, vulns_try, save_results. rewrite Hget, Hloc.
    destruct (save opts); cbn; [|reflexivity].
    destruct (Hsave eq_refl) as [u Hu]. unfold results_path in Hu. now rewrite Hu. }
  split; [exact Hrun|]. rewrite Hrun.
  assert (Hret : Return (report_of (findings r)) = Return "No basic vulnerabilities detected"
                 <-> findings r = []).
  { destruct (report_cases r) as (_ & _ & <-). split; [now intros [= ->] | now intros ->]. }
  rewrite Hret. clear Hret.
  rewrite findings_pieces, <- !contains_spec.
  assert (Hdefault : status r = 200 /\ PyText.contains "default" (PyStr.lower (text r)) = true
                     <-> (status r =? 200) && PyText.contains "default" (PyStr.lower (text r)) = true).
  { now rewrite andb_true_iff, Z.eqb_eq. }
  rewrite Hdefault. clear Hdefault.
  assert (Hold : (forall v, header r "Server" = Some v -> ~ occurs_in "old" (PyStr.lower v))
                 <-> match header r "Server" with
                     | Some v => PyText.contains "old" (PyStr.lower v) <> true
                     | None => True
                     end).
  { destruct (header r "Server") as [v|]; split.
    - intros H. rewrite contains_spec. now apply H.
    - intros H v' [= <-]. now rewrite <- contains_spec.
    - trivial.
    - intros _ v' H. discriminate. }
  rewrite Hold. clear Hold.
  destruct (PyText.contains "Index of /" (text r));
    destruct ((status r =? 200) && PyText.contains "default" (PyStr.lower (text r)));
    destruct (header r "X-Frame-Options");
    destruct (header r "X-Content-Type-Options");
    (destruct (header r "Server") as [v|];
     [destruct (PyText.contains "old" (PyStr.lower v))|]);
    split; intros H;
    first [ discriminate H
          | reflexivity
          | exfalso; destruct H as (H1 & H2 & H3 & H4 & H5);
            first [ now apply H1 | now apply H2 | now destruct H3 | now destruct H4
                  | now apply H5 ]
          | repeat split; first [discriminate | eexists; reflexivity | trivial] ].
Qed.

(** The security headers recorded by [fingerprint_tech]. *)
Lemma tech_of_security_headers (r : response) (h : string) :
  security_headers (tech_of r) !! h
  = if decide (h ∈ sec_headers)
    then Some (bool_decide (is_Some (header r h))) else None.
Proof.
  unfold tech_of, sec_headers. cbn [security_headers foldl].
  destruct (decide (h = "X-Content-Type-Options")) as [->|H3].
  { rewrite lookup_insert_eq. rewrite decide_True; [reflexivity|].
    now do 2 right; left. }
  rewrite lookup_insert_ne by congruence.
  destruct (decide (h = "Content-Security-Policy")) as [->|H2].
  { rewrite lookup_insert_eq. rewrite decide_True; [reflexivity|]. now right; left. }
  rewrite lookup_insert_ne by congruence.
  destruct (decide (h = "X-Frame-Options")) as [->|H1].
  { rewrite lookup_insert_eq. rewrite decide_True; [reflexivity|]. now left. }
  rewrite lookup_insert_ne by congruence. rewrite lookup_empty, decide_False; [reflexivity|].
  intros H. repeat (apply elem_of_cons in H as [H|H]; [congruence|]).
  now apply elem_of_nil in H.
Qed.

Lemma fingerprint_try_fails (url : string) (d : desk) (message : string) :
  (fingerprint_try opts host url d).1 = Fails message
  <-> try_fails opts host "tech_" ".json" url message.
Proof.
  unfold fingerprint_try, try_fails.
  destruct (http_get host url) as [r|m1]; cbn [fst].
  2: { split; [intros [= ->]; now left|].
       intros [H|[(r & H & _)|(r & loc & H & _)]]; congruence. }
  destruct (netloc host url) as [loc|m2]; cbn [fst].
  2: { split; [intros [= ->]; right; left; now exists r|].
       intros [H|[(r' & _ & H)|(r' & loc & _ & H & _)]]; congruence. }
  match goal with
  | |- context [save_results opts host ?a ?b ?c] =>
      pose proof (save_results_cases a b c) as Hsave
  end. cbn zeta in Hsave.
  destruct (save_results opts host _ _ _) as [[u|m3] d']; cbn [fst] in *.
  - split; [discriminate|].
    intros [H|[(r' & _ & H)|(r' & loc' & _ & [= <-] & Hs & Hopen)]];
      try discriminate.
    destruct Hsave as [Hsave|[u' Hsave]]; congruence.
  - destruct Hsave as [Hs Hopen]. split.
    + intros [= ->]. right. right. now exists r, loc.
    + intros [H|[(r' & _ & H)|(r' & loc' & _ & [= <-] & _ & Hopen')]];
        congruence.
Qed.

Lemma fingerprint_try_ok (url : string) (d : desk) (t : tech) :
  (fingerprint_try opts host url d).1 = Ok t ->
  exists r, http_get host url = Ok r /\ t = tech_of r.
Proof.
  unfold fingerprint_try.
  destruct (http_get host url) as [r|m1]; cbn [fst]; [|discriminate].
  destruct (netloc host url) as [loc|m2]; cbn [fst]; [|discriminate].
  destruct (save_results opts host _ _ _) as [[u|m3] d']; cbn [fst]; [|discriminate].
  intros [= <-]. now exists r.
Qed.

(** X16. [fingerprint_tech] returns the empty dictionary exactly when the
    [try] failed (the request raised, the URL could not be parsed or the
    result could not be saved) and the failure could be logged; it raises
    exactly when the [try] failed and the text of the failure, logged in the
    handler, is rejected by the markup of rich while the run is not silent;
    a dictionary it returns otherwise is the one built from the response. *)
Theorem fingerprint_tech_empty (url : string) (d : desk) :
  let result := (fingerprint_tech opts host url d).1 in
  (result = Return None
   <-> exists message,
         try_fails opts host "tech_" ".json" url message
         /\ handler_raises opts host ("Fingerprinting failed: " +:+ message) = false)
  /\ (result = Raise Exception
      <-> exists message,
            try_fails opts host "tech_" ".json" url message
            /\ handler_raises opts host ("Fingerprinting failed: " +:+ message) = true)
  /\ (forall t, result = Return (Some t) ->
      exists r, http_get host url = Ok r /\ t = tech_of r).
Proof.
  cbn zeta. unfold fingerprint_tech.
  pose proof (fingerprint_try_fails url
                (log_desk opts "Fingerprinting technology..." Info d)) as Hfails.
  pose proof (fingerprint_try_ok url
                (log_desk opts "Fingerprinting technology..." Info d)) as Hok.
  destruct (fingerprint_try opts host url _) as [[t|m] d']; cbn [fst] in *.
  - split; [|split].
    + split; [discriminate|].
      intros (message & Hf & _). apply Hfails in Hf. discriminate.
    + split; [discriminate|].
      intros (message & Hf & _). apply Hfails in Hf. discriminate.
    + intros t' [= <-]. now apply Hok.
  - pose proof (log_exception_outcome ("Fingerprinting failed: " +:+ m) d') as Hlog.
    destruct (log_exception opts host _ d') as [[[]|e] d'']; cbn [fst] in *;
      destruct (handler_raises opts host ("Fingerprinting failed: " +:+ m)) eqn:Hh;
      try discriminate.
    + split; [|split]; [split|split|discriminate].
      * intros _. exists m. split; [now apply Hfails | exact Hh].
      * reflexivity.
      * discriminate.
      * intros (message & Hf & Hr). apply Hfails in Hf. injection Hf as <-. congruence.
    + injection Hlog as ->. split; [|split]; [split|split|discriminate].
      * discriminate.
      * intros (message & Hf & Hr). apply Hfails in Hf. injection Hf as <-. congruence.
      * intros _. exists m. split; [now apply Hfails | exact Hh].
      * reflexivity.
Qed.

(** X17. The dictionary of [fingerprint_tech] holds, under
    security_headers, exactly the three names X-Frame-Options,
    Content-Security-Policy and X-Content-Type-Options, each with the
    presence of that header in the response; the CMS is WordPress exactly
    when the page contains that word as written; server and language fall
    back to unknown. *)
Theorem fingerprint_tech_content (url : string) (d : desk) (t : tech) :
  (fingerprint_tech opts host url d).1 = Return (Some t) ->
  exists r : response,
    http_get host url = Ok r
    /\ (forall h : string,
          security_headers t !! h
          = if decide (h ∈ sec_headers)
            then Some (bool_decide (is_Some (header r h))) else None)
    /\ (cms t = "WordPress" <-> occurs_in "WordPress" (text r))
    /\ server t = default "unknown" (header r "Server")
    /\ language t = default "unknown" (header r "X-Powered-By").
Proof.
  unfold fingerprint_tech.
  pose proof (fingerprint_try_ok url
                (log_desk opts "Fingerprinting technology..." Info d)) as Hok.
  destruct (fingerprint_try opts host url _) as [[t'|m] d']; cbn [fst] in *.
  2: { destruct (log_exception opts host _ d') as [[[]|e] d'']; discriminate. }
  intros [= <-]. destruct (Hok t' eq_refl) as (r & Hget & ->).
  exists r. split; [exact Hget|].
  split; [apply tech_of_security_headers|]. split; [|split].
  - rewrite <- contains_spec. unfold tech_of. cbn [cms].
    destruct (PyText.contains "WordPress" (text r)); split;
      first [reflexivity | discriminate].
  - unfold tech_of. cbn [server]. now destruct (header r "Server").
  - unfold tech_of. cbn [language]. now destruct (header r "X-Powered-By").
Qed.

End Reports.

(** ** Files *)

Lemma path_join_results (filename : string) :
  PyText.startswith filename "/" = false ->
  results_path filename = "results/" +:+ filename.
Proof. unfold results_path, PyText.path_join. now intros ->. Qed.

Section DiskInvariant.

Variable opts : Options.
Variable env : Env.
Variable host : Host.
Variable sched : scheduler.

(** A relation between the desk before and after that ignores everything but
    the files, is transitive and holds across [save_results] for a relative
    file name, holds across every module. *)
Variable R : desk -> desk -> Prop.
Hypothesis R_same : forall d d', disk d' = disk d -> R d d'.
Hypothesis R_trans : forall d1 d2 d3, R d1 d2 -> R d2 d3 -> R d1 d3.
Hypothesis R_save : forall data filename d,
  PyText.startswith filename "/" = false ->
  R d (save_results opts host data filename d).2.

Lemma enumerate_saved_R (domain : string) (d : desk) :
  R d (enumerate_subdomains_saved opts env host sched domain d).2.
Proof.
  unfold enumerate_subdomains_saved.
  destruct (enumerate_subdomains (engine opts) env sched domain (seen d)) as [[s|e] w];
    [|now apply R_same].
  match goal with
  | |- context [save_results opts host ?a ?b ?c] =>
      pose proof (R_save a b c eq_refl) as Hsave;
      destruct (save_results opts host a b c) as [[u|m] d']
  end; cbn [snd] in *; (eapply R_trans; [|exact Hsave]); now apply R_same.
Qed.

Lemma scan_saved_R (target : string) (d : desk) :
  R d (scan_ports_saved opts env host sched target d).2.
Proof.
  unfold scan_ports_saved.
  destruct (scan_ports (engine opts) env sched target (seen d)) as [[m|e] w];
    [|now apply R_same].
  match goal with
  | |- context [save_results opts host ?a ?b ?c] =>
      pose proof (R_save a b c eq_refl) as Hsave;
      destruct (save_results opts host a b c) as [[u|msg] d']
  end; cbn [snd] in *; (eapply R_trans; [|exact Hsave]); now apply R_same.
Qed.

Lemma log_exception_disk (message : string) (d : desk) :
  disk (log_exception opts host message d).2 = disk d.
Proof.
  unfold log_exception. destruct (silent (engine opts)); [reflexivity|].
  now destruct (rich_rejects host message).
Qed.

Ltac through_handler :=
  match goal with
  | |- context [log_exception ?o ?h ?m ?d0] =>
      let Hl := fresh "Hl" in
      pose proof (log_exception_disk m d0) as Hl;
      destruct (log_exception o h m d0) as [[[]|?] ?]; cbn [snd] in *;
      (eapply R_trans; [|apply R_same; exact Hl])
  end.

Lemma fingerprint_R (url : string) (d : desk) :
  R d (fingerprint_tech opts host url d).2.
Proof.
  unfold fingerprint_tech, fingerprint_try.
  destruct (http_get host url) as [r|m1]; cbn [snd].
  2: { through_handler; now apply R_same. }
  destruct (netloc host url) as [loc|m2]; cbn [snd].
  2: { through_handler; now apply R_same. }
  match goal with
  | |- context [save_results opts host ?a ?b ?c] =>
      pose proof (R_save a b c eq_refl) as Hsave;
      destruct (save_results opts host a b c) as [[u|msg] d']
  end; cbn [snd] in *.
  - eapply R_trans; [|exact Hsave]. now apply R_same.
  - through_handler; (eapply R_trans; [|exact Hsave]); now apply R_same.
Qed.

Lemma map_vulns_R (url : string) (d : desk) :
  R d (map_vulns opts host url d).2.
Proof.
  unfold map_vulns, vulns_try.
  destruct (http_get host url) as [r|m1]; cbn [snd].
  2: { through_handler; now apply R_same. }
  destruct (netloc host url) as [loc|m2]; cbn [snd].
  2: { through_handler; now apply R_same. }
  match goal with
  | |- context [save_results opts host ?a ?b ?c] =>
      pose proof (R_save a b c eq_refl) as Hsave;
      destruct (save_results opts host a b c) as [[u|msg] d']
  end; cbn [snd] in *.
  - eapply R_trans; [|exact Hsave]. now apply R_same.
  - through_handler; (eapply R_trans; [|exact Hsave]); now apply R_same.
Qed.

Lemma screenshot_try_disk (url : string) (d : desk) :
  disk (screenshot_try opts host url d).2 = disk d.
Proof.
  unfold screenshot_try.
  destruct (driver_get host url); [|now rewrite log_exception_disk].
  destruct (netloc host url); [|now rewrite log_exception_disk].
  destruct (driver_save_screenshot host _); [reflexivity|].
  now rewrite log_exception_disk.
Qed.

Lemma take_screenshot_disk (url : string) (d : desk) :
  disk (take_screenshot opts host url d).2 = disk d.
Proof.
  unfold take_screenshot. destruct (Chrome host); [|reflexivity].
  destruct (driver_quit host); cbn [snd note_browser disk];
    now rewrite screenshot_try_disk.
Qed.

Lemma port_scan_step_R (domain : string) (d : desk) :
  R d (port_scan_step opts env host sched domain d).
Proof.
  unfold port_scan_step.
  destruct (gethostbyname host domain) as [ip|m]; [|now apply R_same].
  pose proof (scan_saved_R ip d) as Hscan.
  destruct (scan_ports_saved opts env host sched ip d) as [[m|e] d']; cbn [snd] in Hscan;
    [exact Hscan|].
  eapply R_trans; [exact Hscan|]. now apply R_same.
Qed.

Lemma full_scan_R (domain : string) (d : desk) :
  R d (full_scan opts env host sched domain d).2.
Proof.
  unfold full_scan.
  assert (H0 : R d (log_desk opts "Starting full scan..." Info d)) by now apply R_same.
  pose proof (enumerate_saved_R domain (log_desk opts "Starting full scan..." Info d)) as H1.
  destruct (enumerate_subdomains_saved opts env host sched domain _) as [[s|e] d1];
    cbn [snd] in *.
  2: { exact (R_trans _ _ _ H0 H1). }
  pose proof (port_scan_step_R domain d1) as H2.
  pose proof (take_screenshot_disk ("https://" +:+ domain)
                (port_scan_step opts env host sched domain d1)) as H3.
  apply R_same in H3.
  assert (H123 : R d (take_screenshot opts host ("https://" +:+ domain)
                        (port_scan_step opts env host sched domain d1)).2).
  { exact (R_trans _ _ _ (R_trans _ _ _ (R_trans _ _ _ H0 H1) H2) H3). }
  clear H0 H1 H2 H3.
  destruct (take_screenshot opts host _ _) as [[u|e] d3]; cbn [snd] in *;
    [|exact H123].
  pose proof (fingerprint_R ("https://" +:+ domain) d3) as H4.
  destruct (fingerprint_tech opts host _ d3) as [[t|e] d4]; cbn [snd] in *.
  2: { exact (R_trans _ _ _ H123 H4). }
  pose proof (map_vulns_R ("https://" +:+ domain) d4) as H5.
  destruct (map_vulns opts host _ d4) as [[v|e] d5]; cbn [snd] in *.
  2: { exact (R_trans _ _ _ (R_trans _ _ _ H123 H4) H5). }
  assert (H6 : R d5 (log_desk opts "Full scan complete" Success d5)) by now apply R_same.
  exact (R_trans _ _ _ (R_trans _ _ _ (R_trans _ _ _ H123 H4) H5) H6).
Qed.

End DiskInvariant.

Section Files.

Variable opts : Options.
Variable env : Env.
Variable host : Host.
Variable sched : scheduler.

Lemma only_results_added_save (data : payload) (filename : string) (d : desk) :
  PyText.startswith filename "/" = false ->
  only_results_added d (save_results opts host data filename d).2.
Proof.
  intros Hrel filepath. unfold save_results.
  destruct (save opts); cbn; [|now left].
  fold (results_path filename). rewrite (path_join_results filename Hrel).
  destruct (open_w host ("results/" +:+ filename)); cbn; [|now left].
  destruct (decide (filepath = "results/" +:+ filename)) as [->|Hne].
  - intros _. right. apply startswith_spec. now exists filename.
  - rewrite lookup_insert_ne by congruence. now left.
Qed.

(** X18. Whatever command is run, every file it writes through
    [save_results] has a path that starts with the results directory (the
    screenshot is written by the browser, not by the framework). *)
Theorem files_go_to_results (name : string) (d : desk) :
  only_results_added d (enumerate_subdomains_saved opts env host sched name d).2
  /\ only_results_added d (scan_ports_saved opts env host sched name d).2
  /\ only_results_added d (fingerprint_tech opts host name d).2
  /\ only_results_added d (map_vulns opts host name d).2
  /\ only_results_added d (full_scan opts env host sched name d).2.
Proof.
  assert (Hsame : forall d1 d2, disk d2 = disk d1 -> only_results_added d1 d2).
  { intros d1 d2 Heq filepath. rewrite Heq. now left. }
  assert (Htrans : forall d1 d2 d3, only_results_added d1 d2 -> only_results_added d2 d3 ->
                                    only_results_added d1 d3).
  { intros d1 d2 d3 H12 H23 filepath H3.
    destruct (H23 filepath H3) as [H2|H2]; [now apply H12 | now right]. }
  repeat split.
  - apply enumerate_saved_R; auto using only_results_added_save.
  - apply scan_saved_R; auto using only_results_added_save.
  - apply fingerprint_R; auto using only_results_added_save.
  - apply map_vulns_R; auto using only_results_added_save.
  - apply full_scan_R; auto using only_results_added_save.
Qed.

(** X19. Without the save option no command writes a result file: the files
    are the same after as before. *)
Theorem no_save_no_file (name : string) (d : desk) :
  save opts = false ->
  disk (enumerate_subdomains_saved opts env host sched name d).2 = disk d
  /\ disk (scan_ports_saved opts env host sched name d).2 = disk d
  /\ disk (fingerprint_tech opts host name d).2 = disk d
  /\ disk (map_vulns opts host name d).2 = disk d
  /\ disk (full_scan opts env host sched name d).2 = disk d.
Proof.
  intros Hsave.
  assert (Htrans : forall d1 d2 d3 : desk, disk d2 = disk d1 -> disk d3 = disk d2 ->
                                           disk d3 = disk d1) by congruence.
  assert (Hs : forall data filename d0, PyText.startswith filename "/" = false ->
                 disk (save_results opts host data filename d0).2 = disk d0).
  { intros data filename d0 _. unfold save_results. now rewrite Hsave. }
  repeat split.
  - apply (enumerate_saved_R opts env host sched (fun d1 d2 => disk d2 = disk d1)); auto.
  - apply (scan_saved_R opts env host sched (fun d1 d2 => disk d2 = disk d1)); auto.
  - apply (fingerprint_R opts host (fun d1 d2 => disk d2 = disk d1)); auto.
  - apply (map_vulns_R opts host (fun d1 d2 => disk d2 = disk d1)); auto.
  - apply (full_scan_R opts env host sched (fun d1 d2 => disk d2 = disk d1)); auto.
Qed.

End Files.

(** ** Screenshots and the full scan *)

Section Browser.

Variable opts : Options.
Variable host : Host.

Lemma log_exception_browser (message : string) (d : desk) :
  browser (log_exception opts host message d).2 = browser d.
Proof.
  unfold log_exception. destruct (silent (engine opts)); [reflexivity|].
  now destruct (rich_rejects host message).
Qed.

Lemma screenshot_try_browser (url : string) (d : desk) :
  exists calls : list browser_event,
    browser (screenshot_try opts host url d).2 = (browser d ++ calls)%list
    /\ (Closed ∉ calls) /\ (Launched ∉ calls).
Proof.
  assert (Hone : forall e, e <> Closed -> e <> Launched ->
                   (Closed ∉ [e]) /\ (Launched ∉ [e])).
  { intros e H1 H2. split; intros H; apply list_elem_of_singleton in H; congruence. }
  assert (Htwo : forall e1 e2, e1 <> Closed -> e1 <> Launched -> e2 <> Closed ->
                   e2 <> Launched -> (Closed ∉ [e1; e2]) /\ (Launched ∉ [e1; e2])).
  { intros e1 e2 H1 H2 H3 H4.
    split; intros H; apply elem_of_cons in H as [H|H]; try congruence;
      apply list_elem_of_singleton in H; congruence. }
  unfold screenshot_try.
  destruct (driver_get host url).
  2: { exists [Visited url]. rewrite log_exception_browser.
       split; [reflexivity | now apply Hone]. }
  destruct (netloc host url) as [loc|].
  2: { exists [Visited url]. rewrite log_exception_browser.
       split; [reflexivity | now apply Hone]. }
  exists [Visited url; Shot (PyText.path_join SCREENSHOTS_DIR (loc +:+ ".png"))].
  split; [|now apply Htwo].
  destruct (driver_save_screenshot host _); rewrite ?log_exception_browser;
    cbn; now rewrite <- app_assoc.
Qed.

(** The [try] of the screenshot, handler included, raises exactly when the
    body failed with a text that the handler cannot log. *)
Lemma screenshot_try_outcome (url : string) (d : desk) :
  (screenshot_try opts host url d).1 = Return tt
  <-> forall message,
        screenshot_fails host url message ->
        handler_raises opts host ("Screenshot failed: " +:+ message) = false.
Proof.
  unfold screenshot_try, screenshot_fails.
  destruct (driver_get host url) as [u1|m1].
  2: { rewrite (log_exception_outcome opts host). split.
       - intros Hret message [H|[(u & H & _)|(u & loc & H & _)]]; try discriminate.
         injection H as <-. now destruct (handler_raises opts host _).
       - intros Hall. now rewrite (Hall m1) by now left. }
  destruct (netloc host url) as [loc|m2].
  2: { rewrite (log_exception_outcome opts host). split.
       - intros Hret message [H|[(u & _ & H)|(u & loc & _ & H & _)]]; try discriminate.
         injection H as <-. now destruct (handler_raises opts host _).
       - intros Hall. rewrite (Hall m2); [reflexivity|]. right. left. now exists u1. }
  destruct (driver_save_screenshot host _) as [u3|m3] eqn:Hshot.
  - cbn [fst]. split; [|reflexivity].
    intros _ message [H|[(u & _ & H)|(u & loc' & _ & [= <-] & H)]]; congruence.
  - rewrite (log_exception_outcome opts host). split.
    + intros Hret message [H|[(u & _ & H)|(u & loc' & _ & [= <-] & H)]];
        try discriminate.
      rewrite Hshot in H. injection H as <-.
      now destruct (handler_raises opts host _).
    + intros Hall. rewrite (Hall m3); [reflexivity|]. right. right. now exists u1, loc.
Qed.

(** X20. When the browser cannot be started, [take_screenshot] raises and
    no call is made on a driver. Once the browser has started,
    [driver.quit()] is called exactly once and last, whether or not the page
    loads or the picture is saved; the call then returns normally exactly
    when [driver.quit()] does not raise and the handler, if the [try]
    failed, could log the text of the failure (it cannot when the run is
    not silent and the markup of rich rejects the text). *)
Theorem take_screenshot_quits (url : string) (d : desk) :
  let r := take_screenshot opts host url d in
  ((exists message, Chrome host = Fails message) ->
   r.1 = Raise Exception /\ browser r.2 = browser d)
  /\ ((exists u, Chrome host = Ok u) ->
      (exists calls : list browser_event,
         browser r.2 = (browser d ++ Launched :: calls ++ [Closed])%list
         /\ (Closed ∉ calls) /\ (Launched ∉ calls))
      /\ (r.1 = Return tt
          <-> (exists u, driver_quit host = Ok u)
              /\ forall message,
                   screenshot_fails host url message ->
                   handler_raises opts host ("Screenshot failed: " +:+ message) = false)).
Proof.
  cbn zeta. unfold take_screenshot. split.
  - intros [message ->]. now split.
  - intros [u ->].
    destruct (screenshot_try_browser url
                (note_browser Launched (log_desk opts "Taking screenshot..." Info d)))
      as (calls & Hcalls & Hc & Hl).
    pose proof (screenshot_try_outcome url
                  (note_browser Launched (log_desk opts "Taking screenshot..." Info d)))
      as Hout.
    split.
    + exists calls. split; [|now split].
      destruct (driver_quit host); cbn [snd note_browser browser];
        rewrite Hcalls; cbn; now rewrite <- !app_assoc.
    + destruct (driver_quit host) as [[]|m]; cbn [fst].
      * rewrite Hout. split; [intros H; split; [now exists tt | exact H] | now intros [_ H]].
      * split; [discriminate | intros [[u' H] _]; discriminate].
Qed.

End Browser.

Section FullScan.

Variable opts : Options.
Variable env : Env.
Variable host : Host.
Variable sched : scheduler.

Lemma save_results_outcome_desk (data : payload) (filename : string) (d1 d2 : desk) :
  (save_results opts host data filename d1).1 = (save_results opts host data filename d2).1.
Proof.
  unfold save_results. destruct (save opts); cbn; [|reflexivity].
  now destruct (open_w host _).
Qed.

Lemma enumerate_outcome_world (domain : string) (w1 w2 : world) :
  (enumerate_subdomains (engine opts) env sched domain w1).1
  = (enumerate_subdomains (engine opts) env sched domain w2).1.
Proof.
  unfold enumerate_subdomains, wordlist_stage.
  destruct (read_lines env _) as [lines|].
  - destruct (unreadable env _); [reflexivity|].
    unfold ThreadPoolExecutor.
    destruct (or_int (threads (engine opts)) DEFAULT_THREADS <=? 0); [reflexivity|].
    cbn [fst]. rewrite !api_fallback_set. do 3 f_equal.
    apply set_eq. intros x. now rewrite !pool_check_elem.
  - cbn [fst]. now rewrite !api_fallback_set.
Qed.

Lemma enumerate_saved_outcome_desk (domain : string) (d1 d2 : desk) :
  (enumerate_subdomains_saved opts env host sched domain d1).1
  = (enumerate_subdomains_saved opts env host sched domain d2).1.
Proof.
  unfold enumerate_subdomains_saved.
  pose proof (enumerate_outcome_world domain (seen d1) (seen d2)) as Hsame.
  destruct (enumerate_subdomains (engine opts) env sched domain (seen d1)) as [[s1|e1] w1];
    destruct (enumerate_subdomains (engine opts) env sched domain (seen d2)) as [[s2|e2] w2];
    cbn [fst] in Hsame |- *; try discriminate; [|exact Hsame].
  injection Hsame as <-.
  match goal with
  | |- (match save_results opts host ?a ?b ?c1 with _ => _ end).1
       = (match save_results opts host ?a ?b ?c2 with _ => _ end).1 =>
      pose proof (save_results_outcome_desk a b c1 c2) as Hsave;
      destruct (save_results opts host a b c1) as [[u1|m1] d1'];
      destruct (save_results opts host a b c2) as [[u2|m2] d2']
  end; cbn [fst] in *; congruence.
Qed.

Lemma log_exception_outcome_desk (message : string) (d1 d2 : desk) :
  (log_exception opts host message d1).1 = (log_exception opts host message d2).1.
Proof. now rewrite !log_exception_outcome. Qed.

Lemma fingerprint_try_outcome_desk (url : string) (d1 d2 : desk) :
  (fingerprint_try opts host url d1).1 = (fingerprint_try opts host url d2).1.
Proof.
  unfold fingerprint_try.
  destruct (http_get host url) as [r|m1]; [|reflexivity].
  destruct (netloc host url) as [loc|m2]; [|reflexivity].
  pose proof (save_results_outcome_desk (JsonTech (tech_of r))
                ("tech_" +:+ loc +:+ ".json") (fetch url d1) (fetch url d2)) as Hsave.
  destruct (save_results opts host (JsonTech (tech_of r))
              ("tech_" +:+ loc +:+ ".json") (fetch url d1)) as [[u1|n1] c1];
    destruct (save_results opts host (JsonTech (tech_of r))
                ("tech_" +:+ loc +:+ ".json") (fetch url d2)) as [[u2|n2] c2];
    cbn [fst] in *; congruence.
Qed.

Lemma vulns_try_outcome_desk (url : string) (d1 d2 : desk) :
  (vulns_try opts host url d1).1 = (vulns_try opts host url d2).1.
Proof.
  unfold vulns_try.
  destruct (http_get host url) as [r|m1]; [|reflexivity].
  destruct (netloc host url) as [loc|m2]; [|reflexivity].
  pose proof (save_results_outcome_desk (Text (report_of (findings r)))
                ("vulns_" +:+ loc +:+ ".txt") (fetch url d1) (fetch url d2)) as Hsave.
  destruct (save_results opts host (Text (report_of (findings r)))
              ("vulns_" +:+ loc +:+ ".txt") (fetch url d1)) as [[u1|n1] c1];
    destruct (save_results opts host (Text (report_of (findings r)))
                ("vulns_" +:+ loc +:+ ".txt") (fetch url d2)) as [[u2|n2] c2];
    cbn [fst] in *; congruence.
Qed.

Lemma fingerprint_outcome_desk (url : string) (d1 d2 : desk) :
  (fingerprint_tech opts host url d1).1 = (fingerprint_tech opts host url d2).1.
Proof.
  unfold fingerprint_tech.
  pose proof (fingerprint_try_outcome_desk url
                (log_desk opts "Fingerprinting technology..." Info d1)
                (log_desk opts "Fingerprinting technology..." Info d2)) as Htry.
  destruct (fingerprint_try opts host url
              (log_desk opts "Fingerprinting technology..." Info d1)) as [[t1|m1] a];
    destruct (fingerprint_try opts host url
                (log_desk opts "Fingerprinting technology..." Info d2)) as [[t2|m2] b];
    cbn [fst] in *; try discriminate; [congruence|].
  injection Htry as <-.
  pose proof (log_exception_outcome_desk ("Fingerprinting failed: " +:+ m1) a b) as Hl.
  destruct (log_exception opts host ("Fingerprinting failed: " +:+ m1) a) as [[[]|e1] a'];
    destruct (log_exception opts host ("Fingerprinting failed: " +:+ m1) b) as [[[]|e2] b'];
    cbn [fst] in *; congruence.
Qed.

Lemma map_vulns_outcome_desk (url : string) (d1 d2 : desk) :
  (map_vulns opts host url d1).1 = (map_vulns opts host url d2).1.
Proof.
  unfold map_vulns.
  pose proof (vulns_try_outcome_desk url
                (log_desk opts "Mapping vulnerabilities..." Info d1)
                (log_desk opts "Mapping vulnerabilities..." Info d2)) as Htry.
  destruct (vulns_try opts host url
              (log_desk opts "Mapping vulnerabilities..." Info d1)) as [[t1|m1] a];
    destruct (vulns_try opts host url
                (log_desk opts "Mapping vulnerabilities..." Info d2)) as [[t2|m2] b];
    cbn [fst] in *; try discriminate; [congruence|].
  injection Htry as <-.
  pose proof (log_exception_outcome_desk ("Vuln mapping failed: " +:+ m1) a b) as Hl.
  destruct (log_exception opts host ("Vuln mapping failed: " +:+ m1) a) as [[[]|e1] a'];
    destruct (log_exception opts host ("Vuln mapping failed: " +:+ m1) b) as [[[]|e2] b'];
    cbn [fst] in *; congruence.
Qed.

Lemma screenshot_try_cases (url : string) (d : desk) :
  (screenshot_try opts host url d).1 = Return tt
  \/ (screenshot_try opts host url d).1 = Raise Exception.
Proof.
  unfold screenshot_try.
  destruct (driver_get host url);
    [|rewrite log_exception_outcome; destruct (handler_raises opts host _); tauto].
  destruct (netloc host url);
    [|rewrite log_exception_outcome; destruct (handler_raises opts host _); tauto].
  destruct (driver_save_screenshot host _); [now left|].
  rewrite log_exception_outcome; destruct (handler_raises opts host _); tauto.
Qed.

Lemma take_screenshot_outcome_desk (url : string) (d1 d2 : desk) :
  (take_screenshot opts host url d1).1 = (take_screenshot opts host url d2).1.
Proof.
  unfold take_screenshot. destruct (Chrome host); [|reflexivity].
  destruct (driver_quit host); [|reflexivity]. cbn [fst].
  pose proof (screenshot_try_outcome opts host url
                (note_browser Launched (log_desk opts "Taking screenshot..." Info d1))) as H1.
  pose proof (screenshot_try_outcome opts host url
                (note_browser Launched (log_desk opts "Taking screenshot..." Info d2))) as H2.
  destruct (screenshot_try_cases url
              (note_browser Launched (log_desk opts "Taking screenshot..." Info d1)))
    as [C1|C1];
    destruct (screenshot_try_cases url
                (note_browser Launched (log_desk opts "Taking screenshot..." Info d2)))
      as [C2|C2]; rewrite C1, C2 in *; try reflexivity; exfalso.
  - assert (Hf : Raise Exception = Return tt :> outcome unit)
      by (apply H2, H1; reflexivity). discriminate.
  - assert (Hf : Raise Exception = Return tt :> outcome unit)
      by (apply H1, H2; reflexivity). discriminate.
Qed.

(** X21. The full scan returns normally exactly when the enumeration (with
    its saving), the screenshot, the fingerprinting and the vulnerability
    mapping each return normally: the port scan never stops it, whatever
    goes wrong in it, and the three modules after it stop it only by
    raising. With the silent option, where no handler can raise, it
    returns normally exactly when the enumeration returns and the browser can
    be started and quit. *)
Theorem full_scan_completes (domain : string) (d : desk) :
  let url := "https://" +:+ domain in
  ((full_scan opts env host sched domain d).1 = Return tt
   <-> (exists s, (enumerate_subdomains_saved opts env host sched domain d).1 = Return s)
       /\ (take_screenshot opts host url d).1 = Return tt
       /\ (exists t, (fingerprint_tech opts host url d).1 = Return t)
       /\ (exists v, (map_vulns opts host url d).1 = Return v))
  /\ (silent (engine opts) = true ->
      ((full_scan opts env host sched domain d).1 = Return tt
       <-> (exists s, (enumerate_subdomains_saved opts env host sched domain d).1 = Return s)
           /\ (exists u, Chrome host = Ok u)
           /\ (exists u, driver_quit host = Ok u))).
Proof.
  cbn zeta.
  assert (Hmain : (full_scan opts env host sched domain d).1 = Return tt
            <-> (exists s, (enumerate_subdomains_saved opts env host sched domain d).1
                           = Return s)
                /\ (take_screenshot opts host ("https://" +:+ domain) d).1 = Return tt
                /\ (exists t, (fingerprint_tech opts host ("https://" +:+ domain) d).1
                              = Return t)
                /\ (exists v, (map_vulns opts host ("https://" +:+ domain) d).1
                              = Return v)).
  { unfold full_scan.
    rewrite (enumerate_saved_outcome_desk domain d
               (log_desk opts "Starting full scan..." Info d)).
    destruct (enumerate_subdomains_saved opts env host sched domain
                (log_desk opts "Starting full scan..." Info d)) as [[s|e] d1]; cbn [fst].
    2: { split; [discriminate | intros ([s Hs] & _); discriminate]. }
    rewrite (take_screenshot_outcome_desk ("https://" +:+ domain) d
               (port_scan_step opts env host sched domain d1)).
    destruct (take_screenshot opts host ("https://" +:+ domain)
                (port_scan_step opts env host sched domain d1)) as [[[]|e] d3]; cbn [fst].
    2: { split; [discriminate | intros (_ & H & _); discriminate]. }
    rewrite (fingerprint_outcome_desk ("https://" +:+ domain) d d3).
    destruct (fingerprint_tech opts host ("https://" +:+ domain) d3) as [[t|e] d4];
      cbn [fst].
    2: { split; [discriminate | intros (_ & _ & [t H] & _); discriminate]. }
    rewrite (map_vulns_outcome_desk ("https://" +:+ domain) d d4).
    destruct (map_vulns opts host ("https://" +:+ domain) d4) as [[v|e] d5]; cbn [fst].
    2: { split; [discriminate | intros (_ & _ & _ & [v H]); discriminate]. }
    split; [|reflexivity]. intros _. repeat split; eexists; reflexivity. }
  split; [exact Hmain|].
  intros Hsilent. rewrite Hmain.
  assert (Hquiet : forall message, handler_raises opts host message = false).
  { intros message. unfold handler_raises. now rewrite Hsilent. }
  assert (Htech : exists t, (fingerprint_tech opts host ("https://" +:+ domain) d).1
                            = Return t).
  { unfold fingerprint_tech.
    destruct (fingerprint_try opts host _ _) as [[t|m] d']; [now eexists|].
    pose proof (log_exception_outcome opts host ("Fingerprinting failed: " +:+ m) d') as Hl.
    rewrite Hquiet in Hl.
    destruct (log_exception opts host _ d') as [[[]|e] d'']; [now eexists | discriminate]. }
  assert (Hvuln : exists v, (map_vulns opts host ("https://" +:+ domain) d).1 = Return v).
  { unfold map_vulns.
    destruct (vulns_try opts host _ _) as [[v|m] d']; [now eexists|].
    pose proof (log_exception_outcome opts host ("Vuln mapping failed: " +:+ m) d') as Hl.
    rewrite Hquiet in Hl.
    destruct (log_exception opts host _ d') as [[[]|e] d'']; [now eexists | discriminate]. }
  assert (Hshot : (take_screenshot opts host ("https://" +:+ domain) d).1 = Return tt
                  <-> (exists u, Chrome host = Ok u) /\ (exists u, driver_quit host = Ok u)).
  { unfold take_screenshot.
    destruct (Chrome host) as [[]|m]; cbn [fst].
    2: { split; [discriminate | intros [[u H] _]; discriminate]. }
    destruct (driver_quit host) as [[]|m]; cbn [fst].
    2: { split; [discriminate | intros [_ [u H]]; discriminate]. }
    rewrite (screenshot_try_outcome opts host).
    split; [intros _; split; now exists tt | intros _ message _; apply Hquiet]. }
  rewrite Hshot. tauto.
Qed.

(** X22. With a negative thread limit the port scan of the full scan is
    skipped without a packet sent, and the reason printed is a failed DNS
    resolution although the name was resolved: the error of the pool is
    caught by the bare [except] around the scan. *)
Theorem port_scan_error_misreported (domain ip : string) (n : Z) (d : desk) :
  threads (engine opts) = Some n ->
  n < 0 ->
  gethostbyname host domain = Ok ip ->
  let d' := port_scan_step opts env host sched domain d in
  seen d' = log (engine opts) "Port scan skipped (DNS resolution failed)" Warning
              (log (engine opts) "Starting port scan..." Info (seen d))
  /\ sent (seen d') = sent (seen d)
  /\ tables d' = tables d
  /\ disk d' = disk d.
Proof.
  intros Hthreads Hn Hip. cbn zeta.
  unfold port_scan_step, scan_ports_saved, scan_ports, ThreadPoolExecutor.
  rewrite Hip, Hthreads. unfold or_int.
  destruct (Z.eqb_spec n 0); [lia|].
  destruct (Z.leb_spec n 0); [|lia]. cbn.
  repeat split.
  now rewrite !(proj1 (log_sent (engine opts) _ _ _)).
Qed.

End FullScan.

(** ** What the engines save and print *)

#[local] Instance str_le_total : Total PyText.str_le.
Proof. intros a b. apply String.leb_total. Qed.

Section Saved.

Variable opts : Options.
Variable env : Env.
Variable host : Host.
Variable sched : scheduler.

Lemma save_results_written (data : payload) (filename : string) (d : desk) (u : unit) :
  save opts = true ->
  PyText.startswith filename "/" = false ->
  open_w host (results_path filename) = Ok u ->
  (save_results opts host data filename d).1 = Ok tt
  /\ disk (save_results opts host data filename d).2
     = <["results/" +:+ filename := data]> (disk d).
Proof.
  intros Hsave Hrel Hopen. unfold save_results. rewrite Hsave. cbn [negb].
  fold (results_path filename). rewrite Hopen.
  now rewrite (path_join_results filename Hrel).
Qed.

(** X23. With the save option and a writable results directory, the
    enumeration stores under results/subdomains_<domain>.txt the names it
    returns, each once, one per line, in ascending order of code points. *)
Theorem subdomains_file_sorted (domain : string) (d : desk) (s : gset string) (u : unit) :
  save opts = true ->
  open_w host (results_path ("subdomains_" +:+ domain +:+ ".txt")) = Ok u ->
  (enumerate_subdomains (engine opts) env sched domain (seen d)).1 = Return s ->
  let r := enumerate_subdomains_saved opts env host sched domain d in
  r.1 = Return s
  /\ exists names : list string,
       disk r.2 !! ("results/subdomains_" +:+ domain +:+ ".txt")
       = Some (Text (PyText.join PyText.LF names))
       /\ Sorted PyText.str_le names
       /\ NoDup names
       /\ forall x : string, x ∈ names <-> x ∈ s.
Proof.
  intros Hsave Hopen Hrun. cbn zeta. unfold enumerate_subdomains_saved.
  destruct (enumerate_subdomains (engine opts) env sched domain (seen d)) as [[s'|e] w];
    cbn [fst] in Hrun; [|discriminate].
  injection Hrun as ->.
  match goal with
  | |- context [save_results opts host ?a ?b ?c] =>
      destruct (save_results_written a b c u Hsave eq_refl Hopen) as [Hok Hdisk];
      destruct (save_results opts host a b c) as [[[]|m] d']
  end; cbn [fst snd] in *; [|discriminate].
  split; [reflexivity|].
  exists (PyText.sorted (elements s)). split; [|split; [|split]].
  - rewrite Hdisk. apply lookup_insert_eq.
  - apply Sorted_merge_sort. apply _.
  - unfold PyText.sorted. rewrite merge_sort_Permutation. apply NoDup_elements.
  - intros x. unfold PyText.sorted. rewrite merge_sort_Permutation.
    apply elem_of_elements.
Qed.

(** X24. Whenever the scan runs, the table of the open ports it returns is
    printed, once: the silent option does not hide it, and it is printed
    before the map is saved, so also when saving fails. *)
Theorem scan_table_printed (target : string) (d : desk) :
  pool_accepts (engine opts) ->
  exists m : gmap Z string,
    (scan_ports (engine opts) env sched target (seen d)).1 = Return m
    /\ tables (scan_ports_saved opts env host sched target d).2 = (tables d ++ [m])%list.
Proof.
  intros Hpool. unfold scan_ports_saved.
  rewrite (scan_ports_run _ _ _ _ _ Hpool). cbn zeta.
  eexists. split; [reflexivity|].
  unfold save_results. destruct (save opts); cbn; [|reflexivity].
  now destruct (open_w host _).
Qed.

End Saved.

(** * The further properties on examples *)

(** X1 with a negative thread limit, no wordlist file and no passive source. *)
Lemma enumerate_nothing_available_example :
  (enumerate_subdomains Examples.args_neg Examples.envD fifo "example.com" world0).1
  = Return ∅.
Proof.
  exact (enumerate_nothing_available Examples.args_neg Examples.envD "example.com"
           fifo world0 eq_refl eq_refl).
Defined.

(** X2 on a wordlist in capitals and a passive source that know the same
    host: the set holds the name of the wordlist as written and the name of
    the passive source, and nothing else. *)
Lemma enumerate_merges_sources_example :
  (enumerate_subdomains Examples.args0 Examples.envCaps lifo "example.com" world0).1
  = Return {["WWW.example.com"; "www.example.com"]}.
Proof.
  destruct (enumerate_merges_sources Examples.args0 Examples.envCaps "example.com"
              lifo world0 ["WWW"] [Some "www.example.com"]
              fair_lifo pool_accepts_default) as (s & Hs & Helem).
  { split; reflexivity. }
  { reflexivity. }
  { intros H. apply list_elem_of_singleton in H. discriminate. }
  rewrite Hs. f_equal. apply set_eq. intros x.
  rewrite Helem, elem_of_union, !elem_of_singleton. split.
  - intros [(line & Hin & _ & Hx & _)|(nv & Hin & Hx & _)].
    + apply list_elem_of_singleton in Hin. subst line. left. exact Hx.
    + apply list_elem_of_singleton in Hin. injection Hin as Hnv. subst nv.
      right. exact Hx.
  - intros [-> | ->].
    + left. exists "WWW". split; [left|]. split; [discriminate|]. split; reflexivity.
    + right. exists "www.example.com". split; [left | split; reflexivity].
Defined.

(** X3 on scenario C: the record added is in lower case and in the domain. *)
Lemma passive_names_shape_example :
  PyStr.lower "sub.example.com" = "sub.example.com"
  /\ exists p, "sub.example.com" = p +:+ "." +:+ "example.com".
Proof.
  apply (passive_names_shape Examples.args0 Examples.envC "example.com" (∅, world0)).
  - apply (bool_decide_unpack _). vm_compute. reflexivity.
  - apply not_elem_of_empty.
Defined.

(** X4 on scenario C with the domain written Example.com. *)
Lemma passive_needs_lower_domain_example :
  (api_fallback Examples.args0 Examples.envC "Example.com" (∅, world0)).1 = ∅.
Proof.
  apply (passive_needs_lower_domain Examples.args0 Examples.envC "Example.com" (∅, world0)).
  discriminate.
Defined.

(** X5 on scenario A. *)
Lemma enumerate_calls_example :
  let w' := (enumerate_subdomains Examples.args0 Examples.envA lifo "example.com" world0).2 in
  queried w' ≡ₚ ["www.example.com"; "mail.example.com"]
  /\ fetched w' = ["https://crt.sh/?q=example.com&output=json"]
  /\ sent w' = [].
Proof.
  exact (enumerate_calls Examples.args0 Examples.envA "example.com" lifo world0
           ["www"; "mail"] fair_lifo pool_accepts_default (conj eq_refl eq_refl)).
Defined.

(** X6 on a file with blanks around a label and a blank line. *)
Lemma load_wordlist_clean_example :
  "www" <> "" /\ PyStr.strip "www" = "www".
Proof.
  apply (load_wordlist_clean ["  www "; "   "] "www").
  apply (bool_decide_unpack _). vm_compute. reflexivity.
Defined.

(** X7 on scenario B, first-in-first-out against last-in-first-out. *)
Lemma scan_deterministic_example :
  (scan_ports Examples.args0 Examples.envB fifo "10.0.0.1" world0).1
  = (scan_ports Examples.args0 Examples.envB lifo "10.0.0.1" world0).1.
Proof.
  exact (scan_deterministic Examples.envB "10.0.0.1" Examples.args0 fifo lifo
           world0 world0 fair_fifo fair_lifo).
Defined.

Lemma pool_accepts_full : pool_accepts Samples.args_full.
Proof. unfold pool_accepts. reflexivity. Qed.

(** X8 on scenario B. *)
Lemma top_ports_restricts_full_example :
  exists m_top m_full : gmap Z string,
    (scan_ports Examples.args0 Examples.envB fifo "10.0.0.1" world0).1 = Return m_top
    /\ (scan_ports Samples.args_full Examples.envB lifo "10.0.0.1" world0).1 = Return m_full
    /\ (forall port : Z,
          m_top !! port = if decide (1 <= port <= 1024) then m_full !! port else None)
    /\ m_top ⊆ m_full.
Proof.
  exact (top_ports_restricts_full Examples.envB "10.0.0.1" Examples.args0 Samples.args_full
           fifo lifo world0 world0 eq_refl eq_refl pool_accepts_default pool_accepts_full
           fair_fifo fair_lifo).
Defined.

Lemma envB_addressable : addressable Examples.envB "10.0.0.1".
Proof.
  intros port f timeout. cbn.
  now destruct (String.eqb f "S" && ((port =? 80) || (port =? 443))).
Qed.

(** X9 on scenario B: the SYN segment to port 81 and the ACK segment to port
    80 are sent, no ACK segment goes to port 81. *)
Lemma scan_packets_example :
  exists (m : gmap Z string) (w' : world),
    scan_ports Examples.args0 Examples.envB fifo "10.0.0.1" world0 = (Return m, w')
    /\ (mkPacket "10.0.0.1" 81 "S", TIMEOUT) ∈ sent w'
    /\ (mkPacket "10.0.0.1" 80 "A", 1) ∈ sent w'
    /\ ((mkPacket "10.0.0.1" 81 "A", 1) ∉ sent w').
Proof.
  destruct (scan_packets Examples.envB "10.0.0.1" Examples.args0 fifo world0
              fair_fifo pool_accepts_default) as (m & w' & Hrun & Hsent).
  destruct (scan_ports_lookup Examples.args0 Examples.envB fifo "10.0.0.1" world0
              fair_fifo pool_accepts_default) as (m0 & Hm0 & Hlook).
  rewrite Hrun in Hm0. cbn [fst] in Hm0. injection Hm0 as <-.
  assert (H80 : (80 : Z) ∈ ports Examples.args0) by (apply ports_range; cbn; lia).
  assert (H81 : (81 : Z) ∈ ports Examples.args0) by (apply ports_range; cbn; lia).
  exists m, w'. split; [exact Hrun|]. split; [|split].
  - apply Hsent. right. exists 81. split; [exact H81|]. left. now repeat split.
  - apply Hsent. right. exists 80. split; [exact H80|]. right.
    repeat split. rewrite Hlook, decide_True by exact H80. eexists; reflexivity.
  - intros H. apply Hsent in H as [H|(port & _ & [(H & _)|(H & _ & Hopen & _)])].
    + now apply elem_of_nil in H.
    + discriminate.
    + injection H as <-. rewrite Hlook, decide_True in Hopen by exact H81.
      destruct Hopen as [v Hv]. discriminate.
Defined.

(** X10 on scenario B, and on a target for which no packet can be built. *)
Lemma scan_packet_count_example :
  (exists (m : gmap Z string) (w' : world),
     scan_ports Examples.args0 Examples.envB fifo "10.0.0.1" world0 = (Return m, w')
     /\ Z.of_nat (length (sent w')) = 0 + 1024 + Z.of_nat (size m))
  /\ (exists (m : gmap Z string) (w' : world),
        scan_ports Examples.args0 Examples.envUnbuilt fifo "no.such.host" world0
        = (Return m, w')
        /\ length (sent w') = 0%nat).
Proof.
  split.
  - destruct (scan_packet_count Examples.envB "10.0.0.1" Examples.args0 fifo world0
                fair_fifo pool_accepts_default) as (m & w' & Hrun & Hcount & _).
    exists m, w'. split; [exact Hrun|]. apply Hcount. exact envB_addressable.
  - destruct (scan_packet_count Examples.envUnbuilt "no.such.host" Examples.args0 fifo
                world0 fair_fifo pool_accepts_default) as (m & w' & Hrun & _ & Hnone).
    exists m, w'. split; [exact Hrun|]. apply Hnone. intros port _. reflexivity.
Defined.

(** X11 on scenario A, where the passive source fails. *)
Lemma silent_prints_nothing_example :
  console (enumerate_subdomains Samples.args_silent Examples.envA fifo "example.com" world0).2
  = []
  /\ console (scan_ports Samples.args_silent Examples.envA fifo "example.com" world0).2 = [].
Proof.
  exact (silent_prints_nothing Samples.args_silent Examples.envA fifo "example.com"
           world0 eq_refl).
Defined.

Lemma listing_page_occurs : occurs_in "Index of /" (text Samples.listing_page).
Proof. apply contains_spec. reflexivity. Qed.

(** X12 on the page of a directory listing. *)
Lemma findings_exact_example :
  "Directory listing enabled" ∈ findings Samples.listing_page.
Proof.
  apply (findings_exact Samples.listing_page). exact listing_page_occurs.
Defined.

(** X13 on the same page, which lacks X-Content-Type-Options only. *)
Lemma missing_headers_named_example :
  missing_line ["X-Content-Type-Options"] ∈ findings Samples.listing_page.
Proof.
  apply (missing_headers_named Samples.listing_page).
  split; [eexists; reflexivity | reflexivity].
Defined.

(** X14 on a results directory that cannot be written to, where the
    findings are lost, and on a request whose error text holds a closing
    tag, where [map_vulns] raises. *)
Lemma map_vulns_error_text_example :
  (map_vulns Samples.opts_save Samples.host_readonly "https://example.com" desk0).1
  = Return "Error in vuln mapping"
  /\ (map_vulns Samples.opts_plain Samples.host_markup "https://example.com" desk0).1
     = Raise Exception.
Proof.
  split.
  - apply (map_vulns_error_text Samples.opts_save Samples.host_readonly
             "https://example.com" desk0).
    exists "Permission denied". split; [|reflexivity].
    right. right. exists Samples.listing_page, "example.com". now repeat split.
  - apply (map_vulns_error_text Samples.opts_plain Samples.host_markup
             "https://example.com" desk0).
    exists "no route to [/x]". split; [now left | reflexivity].
Defined.

(** X15 on a page with nothing to report. *)
Lemma map_vulns_clean_report_example :
  (map_vulns Samples.opts_save Samples.host_clean "https://example.com" desk0).1
  = Return "No basic vulnerabilities detected".
Proof.
  destruct (map_vulns_clean_report Samples.opts_save Samples.host_clean
              "https://example.com" desk0 Samples.clean_page "example.com"
              eq_refl eq_refl) as [_ Hclean].
  { intros _. now exists tt. }
  apply Hclean. repeat split.
  - intros H. apply contains_spec in H. discriminate.
  - intros [_ H]. apply contains_spec in H. discriminate.
  - eexists; reflexivity.
  - eexists; reflexivity.
  - intros v H. discriminate.
Defined.

(** X16 on a results directory that cannot be written to, where the empty
    dictionary is returned, and on a request whose error text holds a
    closing tag, where [fingerprint_tech] raises. *)
Lemma fingerprint_tech_empty_example :
  (fingerprint_tech Samples.opts_save Samples.host_readonly "https://example.com" desk0).1
  = Return None
  /\ (fingerprint_tech Samples.opts_plain Samples.host_markup "https://example.com" desk0).1
     = Raise Exception.
Proof.
  split.
  - apply (fingerprint_tech_empty Samples.opts_save Samples.host_readonly
             "https://example.com" desk0).
    exists "Permission denied". split; [|reflexivity].
    right. right. exists Samples.listing_page, "example.com". now repeat split.
  - apply (fingerprint_tech_empty Samples.opts_plain Samples.host_markup
             "https://example.com" desk0).
    exists "no route to [/x]". split; [now left | reflexivity].
Defined.

(** X17 on the page of a directory listing. *)
Lemma fingerprint_tech_content_example :
  exists r : response,
    http_get Samples.host_listing "https://example.com" = Ok r
    /\ (forall h : string,
          security_headers (tech_of Samples.listing_page) !! h
          = if decide (h ∈ sec_headers)
            then Some (bool_decide (is_Some (header r h))) else None)
    /\ (cms (tech_of Samples.listing_page) = "WordPress"
        <-> occurs_in "WordPress" (text r))
    /\ server (tech_of Samples.listing_page) = default "unknown" (header r "Server")
    /\ language (tech_of Samples.listing_page)
       = default "unknown" (header r "X-Powered-By").
Proof.
  exact (fingerprint_tech_content Samples.opts_plain Samples.host_listing
           "https://example.com" desk0 (tech_of Samples.listing_page) eq_refl).
Defined.

(** X18 on a full scan that saves its results. *)
Lemma files_go_to_results_example :
  only_results_added desk0
    (full_scan Samples.opts_save Examples.envA Samples.host_listing fifo "example.com" desk0).2.
Proof.
  apply (files_go_to_results Samples.opts_save Examples.envA Samples.host_listing fifo
           "example.com" desk0).
Defined.

(** X19 on a full scan without the save option. *)
Lemma no_save_no_file_example :
  disk (full_scan Samples.opts_plain Examples.envA Samples.host_listing fifo
          "example.com" desk0).2
  = ∅.
Proof.
  apply (no_save_no_file Samples.opts_plain Examples.envA Samples.host_listing fifo
           "example.com" desk0 eq_refl).
Defined.

(** X20 on a page that times out, where the browser is quit and the call
    returns, and on a page whose error text holds a closing tag, where the
    browser is quit and the call raises. *)
Lemma take_screenshot_quits_example :
  (exists calls : list browser_event,
     browser (take_screenshot Samples.opts_plain Samples.host_listing
                "https://example.com" desk0).2
     = ([] ++ Launched :: calls ++ [Closed])%list
     /\ (Closed ∉ calls) /\ (Launched ∉ calls))
  /\ (take_screenshot Samples.opts_plain Samples.host_listing
        "https://example.com" desk0).1 = Return tt
  /\ (take_screenshot Samples.opts_plain Samples.host_markup
        "https://example.com" desk0).1 <> Return tt.
Proof.
  destruct (take_screenshot_quits Samples.opts_plain Samples.host_listing
              "https://example.com" desk0) as [_ Hrun].
  destruct (Hrun ltac:(now exists tt)) as [Hcalls Hret].
  split; [exact Hcalls|]. split.
  - apply Hret. split; [now exists tt|].
    intros message [H|[(u & H & _)|(u & loc & H & _)]]; try discriminate.
    injection H as <-. reflexivity.
  - destruct (take_screenshot_quits Samples.opts_plain Samples.host_markup
                "https://example.com" desk0) as [_ Hrun'].
    destruct (Hrun' ltac:(now exists tt)) as [_ Hret'].
    intros H. apply Hret' in H as [_ H].
    specialize (H "no route to [/x]" ltac:(now left)). discriminate.
Defined.

(** X21 on a machine without a browser, and on a silent run with every
    request failing: the first raises, the second returns. *)
Lemma full_scan_completes_example :
  (full_scan Samples.opts_plain Examples.envA Samples.host_headless fifo
     "example.com" desk0).1 <> Return tt
  /\ (full_scan Samples.opts_silent Examples.envA Samples.host_markup fifo
        "example.com" desk0).1 = Return tt.
Proof.
  split.
  - intros H.
    destruct (full_scan_completes Samples.opts_plain Examples.envA Samples.host_headless
                fifo "example.com" desk0) as [Hmain _].
    apply Hmain in H as (_ & H & _). vm_compute in H. discriminate.
  - destruct (full_scan_completes Samples.opts_silent Examples.envA Samples.host_markup
                fifo "example.com" desk0) as [_ Hsilent].
    apply (Hsilent eq_refl). split; [|split; now exists tt].
    eexists. vm_compute. reflexivity.
Defined.

(** X22 on a limit of -1. *)
Lemma port_scan_error_misreported_example :
  let d' := port_scan_step Samples.opts_neg Examples.envB Samples.host_listing fifo
              "example.com" desk0 in
  seen d' = log Examples.args_neg "Port scan skipped (DNS resolution failed)" Warning
              (log Examples.args_neg "Starting port scan..." Info world0)
  /\ sent (seen d') = []
  /\ tables d' = []
  /\ disk d' = ∅.
Proof.
  apply (port_scan_error_misreported Samples.opts_neg Examples.envB Samples.host_listing
           fifo "example.com" "93.184.216.34" (-1) desk0 eq_refl); [lia | reflexivity].
Defined.

(** X23 on scenario A. *)
Lemma subdomains_file_sorted_example :
  let r := enumerate_subdomains_saved Samples.opts_save Examples.envA Samples.host_listing
             fifo "example.com" desk0 in
  r.1 = Return {["www.example.com"]}
  /\ exists names : list string,
       disk r.2 !! ("results/subdomains_" +:+ "example.com" +:+ ".txt")
       = Some (Text (PyText.join PyText.LF names))
       /\ Sorted PyText.str_le names
       /\ NoDup names
       /\ forall x : string, x ∈ names <-> x ∈ ({["www.example.com"]} : gset string).
Proof.
  apply (subdomains_file_sorted Samples.opts_save Examples.envA Samples.host_listing fifo
           "example.com" desk0 {["www.example.com"]} tt eq_refl eq_refl).
  vm_compute. reflexivity.
Defined.

(** X24 on scenario B in silent mode. *)
Lemma scan_table_printed_example :
  exists m : gmap Z string,
    (scan_ports Samples.args_silent Examples.envB fifo "10.0.0.1" world0).1 = Return m
    /\ tables (scan_ports_saved (mkOptions Samples.args_silent false) Examples.envB
                 Samples.host_listing fifo "10.0.0.1" desk0).2
       = [m].
Proof.
  apply (scan_table_printed (mkOptions Samples.args_silent false) Examples.envB
           Samples.host_listing fifo "10.0.0.1" desk0).
  unfold pool_accepts. reflexivity.
Defined.
